(** * The match simulation engine (Sim/config.py, Sim/entities.py, Sim/engine.py)

    A shallow embedding of the simulation core and the properties of its
    specification.

    Numbers.  The Python code computes with [int] and [float] values; here every
    numeric quantity is an exact rational ([Q]): the development is about the
    arithmetic the code writes down, not about binary64 rounding.  Equalities
    between quantities are therefore stated with [==] ([Qeq]).

    Strings.  Zone names, team names, hub statuses and action labels are the
    strings the code uses; [current_action] is compared, prefix-tested and split
    exactly as in [_on_action_complete].

    Mutation and exceptions.  A method that mutates [self] (and the robot it is
    handed) becomes a function returning the state it leaves behind, wrapped in
    [Outcome]: [Returns s] when the call returns, [Raises err s] when a Python
    exception escapes, [s] being the state at the point of the raise.  The robots
    of an engine are distinct objects, kept by value in a list. *)

From Stdlib Require Import QArith Qround Qminmax ZArith String List Bool Lia Lqa.
Import ListNotations.
Open Scope string_scope.
Open Scope list_scope.
Open Scope Q_scope.

(** ** Python helpers *)

Inductive PyError : Type :=
| KeyError (key : string)
| IndexError.

Inductive Outcome (S : Type) : Type :=
| Returns (s : S)
| Raises (err : PyError) (s : S).
Arguments Returns {S} s.
Arguments Raises {S} err s.

Definition state_of {S : Type} (o : Outcome S) : S :=
  match o with
  | Returns s => s
  | Raises _ s => s
  end.

Definition returned {S : Type} (o : Outcome S) : bool :=
  match o with
  | Returns _ => true
  | Raises _ _ => false
  end.

(** [x > y] and [x <= y] on numbers, as booleans. *)
Definition Qgtb (x y : Q) : bool := negb (Qle_bool x y).
Definition Qltb (x y : Q) : bool := negb (Qle_bool y x).

(** [min(a, b, c)] *)
Definition min3 (a b c : Q) : Q := Qmin (Qmin a b) c.

(** [l[idx]] position for a Python list of length [n]: negative indices count
    from the end, anything outside [-n, n) is an [IndexError]. *)
Definition py_index (n : nat) (idx : Z) : option nat :=
  if ((0 <=? idx) && (idx <? Z.of_nat n))%Z then Some (Z.to_nat idx)
  else if ((idx <? 0) && (- Z.of_nat n <=? idx))%Z then Some (Z.to_nat (Z.of_nat n + idx))
  else None.

Definition py_getitem {A : Type} (l : list A) (idx : Z) : option (nat * A) :=
  match py_index (length l) idx with
  | Some i => match nth_error l i with
              | Some a => Some (i, a)
              | None => None
              end
  | None => None
  end.

(** The list [l] with position [i] holding [x] (the in-place mutation of the
    object stored there). *)
Fixpoint set_nth {A : Type} (l : list A) (i : nat) (x : A) : list A :=
  match l, i with
  | [], _ => []
  | _ :: t, O => x :: t
  | h :: t, S j => h :: set_nth t j x
  end.

(** [s.split(sep)] for a non-empty separator: the pieces between the
    non-overlapping occurrences of [sep], scanned from the left.  [skip] counts
    the characters of a matched separator still to be dropped, [cur] is the
    piece being read. *)
Fixpoint split_from (sep : string) (skip : nat) (cur : string) (s : string) : list string :=
  match s with
  | EmptyString => [cur]
  | String c s' =>
      match skip with
      | S k => split_from sep k cur s'
      | O => if String.prefix sep s
             then cur :: split_from sep (String.length sep - 1) "" s'
             else split_from sep 0 (cur ++ String c "")%string s'
      end
  end.

Definition split (sep s : string) : list string := split_from sep 0 "" s.

(** ** config.py *)

Module config.
Definition TOTAL_BALLS : Q := 504.
Definition MAX_INTAKE_RATE : Q := 6.

Definition MATCH_DURATION : Q := 160.
Definition AUTO_DURATION : Q := 20.
Definition SHIFT_START_TIME : Q := 30.
Definition SHIFT_DURATION : Q := 25.

Definition ZONE_NEUTRAL : string := "Neutral".
Definition ZONE_RED : string := "Red".
Definition ZONE_BLUE : string := "Blue".

Definition HUB_ACTIVE : string := "ACTIVE".
Definition HUB_INACTIVE : string := "INACTIVE".
End config.

(** ** entities.py *)

Record Zone : Type := mkZone {
  name : string;
  balls : Q
}.

Definition add_balls (z : Zone) (count : Q) : Zone :=
  mkZone (name z) (balls z + count).

(** Returns the zone left behind and the amount actually removed. *)
Definition remove_balls (z : Zone) (count : Q) : Zone * Q :=
  let removed := Qmin (balls z) count in
  (mkZone (name z) (balls z - removed), removed).

Record Robot : Type := mkRobot {
  team : string;
  id : Z;
  capacity : Q;
  transit_time : Q;
  balls_shot_per_sec : Q;
  intake_efficiency : Q;
  start_zone : string;
  current_zone_name : string;
  inventory : Q;
  action_cooldown : Q;
  current_action : string;
  score_contribution : Q
}.

Definition with_zone (b : Robot) (z : string) : Robot :=
  mkRobot (team b) (id b) (capacity b) (transit_time b) (balls_shot_per_sec b)
          (intake_efficiency b) (start_zone b) z (inventory b)
          (action_cooldown b) (current_action b) (score_contribution b).

Definition with_inventory (b : Robot) (v : Q) : Robot :=
  mkRobot (team b) (id b) (capacity b) (transit_time b) (balls_shot_per_sec b)
          (intake_efficiency b) (start_zone b) (current_zone_name b) v
          (action_cooldown b) (current_action b) (score_contribution b).

Definition with_cooldown (b : Robot) (c : Q) : Robot :=
  mkRobot (team b) (id b) (capacity b) (transit_time b) (balls_shot_per_sec b)
          (intake_efficiency b) (start_zone b) (current_zone_name b) (inventory b)
          c (current_action b) (score_contribution b).

Definition with_action (b : Robot) (a : string) : Robot :=
  mkRobot (team b) (id b) (capacity b) (transit_time b) (balls_shot_per_sec b)
          (intake_efficiency b) (start_zone b) (current_zone_name b) (inventory b)
          (action_cooldown b) a (score_contribution b).

(** [Robot.__init__] *)
Definition Robot_init (team : string) (id : Z) (capacity transit_time
    balls_shot_per_sec intake_efficiency : Q) (start_zone : string)
    (initial_inventory : Q) : Robot :=
  mkRobot team id capacity transit_time balls_shot_per_sec
          (Qmax 0 (Qmin 1 intake_efficiency))
          start_zone start_zone initial_inventory 0 "Idle" 0.

Definition is_busy (b : Robot) : bool := Qgtb (action_cooldown b) 0.

Definition update (b : Robot) (dt : Q) : Robot :=
  if Qgtb (action_cooldown b) 0 then
    let b1 := with_cooldown b (action_cooldown b - dt) in
    if Qle_bool (action_cooldown b1) 0
    then with_action (with_cooldown b1 0) "Idle"
    else b1
  else b.

Definition set_action_transit (b : Robot) (target_zone : string) : Robot :=
  with_cooldown (with_action b ("Moving to " ++ target_zone)%string)
                (transit_time b).

Definition set_action_shoot (b : Robot) : Robot := with_action b "Shooting".

Definition set_action_pass (b : Robot) : Robot := with_action b "Passing".

(** ** engine.py *)

(** [self.zones]: a dictionary whose keys are, for the whole life of the engine,
    the three zone names; one field per key. *)
Record ZoneDict : Type := mkZoneDict {
  zone_red : Zone;
  zone_blue : Zone;
  zone_neutral : Zone
}.

(** [zones[key]], [None] standing for the [KeyError]; also [key in zones]. *)
Definition zones_get (zs : ZoneDict) (key : string) : option Zone :=
  if key =? config.ZONE_RED then Some (zone_red zs)
  else if key =? config.ZONE_BLUE then Some (zone_blue zs)
  else if key =? config.ZONE_NEUTRAL then Some (zone_neutral zs)
  else None.

(** [zones[key].balls = v] for a key of the dictionary. *)
Definition zones_set_balls (zs : ZoneDict) (key : string) (v : Q) : ZoneDict :=
  if key =? config.ZONE_RED
  then mkZoneDict (mkZone (name (zone_red zs)) v) (zone_blue zs) (zone_neutral zs)
  else if key =? config.ZONE_BLUE
  then mkZoneDict (zone_red zs) (mkZone (name (zone_blue zs)) v) (zone_neutral zs)
  else if key =? config.ZONE_NEUTRAL
  then mkZoneDict (zone_red zs) (zone_blue zs) (mkZone (name (zone_neutral zs)) v)
  else zs.

(** One entry of [history_robot_states]. *)
Record RobotState : Type := mkRobotState {
  rs_time : Q;
  rs_robot_idx : nat;
  rs_team : string;
  rs_zone : string;
  rs_action : string;
  rs_inventory : Q;
  rs_cooldown : Q
}.

(** What one call of [step] appends to the history lists.  The source keeps
    eight parallel lists, all extended in the same place at the end of [step];
    they are kept here as one list of per-call records, from which each of the
    source's lists is a projection (below). *)
Record Snapshot : Type := mkSnapshot {
  snap_time : Q;
  snap_red_balls : Q;
  snap_blue_balls : Q;
  snap_neutral_balls : Q;
  snap_robot_states : list RobotState;
  snap_red_hub : string;
  snap_blue_hub : string;
  snap_red_score : Q;
  snap_blue_score : Q
}.

Record Engine : Type := mkEngine {
  time : Q;
  zones : ZoneDict;
  robots : list Robot;
  red_hub_status : string;
  blue_hub_status : string;
  red_score : Q;
  blue_score : Q;
  history : list Snapshot
}.

Definition with_time (e : Engine) (t : Q) : Engine :=
  mkEngine t (zones e) (robots e) (red_hub_status e) (blue_hub_status e)
           (red_score e) (blue_score e) (history e).

Definition with_zones (e : Engine) (zs : ZoneDict) : Engine :=
  mkEngine (time e) zs (robots e) (red_hub_status e) (blue_hub_status e)
           (red_score e) (blue_score e) (history e).

Definition with_robots (e : Engine) (rs : list Robot) : Engine :=
  mkEngine (time e) (zones e) rs (red_hub_status e) (blue_hub_status e)
           (red_score e) (blue_score e) (history e).

Definition with_hubs (e : Engine) (r b : string) : Engine :=
  mkEngine (time e) (zones e) (robots e) r b
           (red_score e) (blue_score e) (history e).

Definition with_red_score (e : Engine) (s : Q) : Engine :=
  mkEngine (time e) (zones e) (robots e) (red_hub_status e) (blue_hub_status e)
           s (blue_score e) (history e).

Definition with_blue_score (e : Engine) (s : Q) : Engine :=
  mkEngine (time e) (zones e) (robots e) (red_hub_status e) (blue_hub_status e)
           (red_score e) s (history e).

Definition with_history (e : Engine) (h : list Snapshot) : Engine :=
  mkEngine (time e) (zones e) (robots e) (red_hub_status e) (blue_hub_status e)
           (red_score e) (blue_score e) h.

(** The source's history lists, read off the per-call records. *)
Definition history_time (e : Engine) : list Q := map snap_time (history e).
Definition history_red_balls (e : Engine) : list Q := map snap_red_balls (history e).
Definition history_blue_balls (e : Engine) : list Q := map snap_blue_balls (history e).
Definition history_neutral_balls (e : Engine) : list Q :=
  map snap_neutral_balls (history e).
Definition history_robot_states (e : Engine) : list RobotState :=
  concat (map snap_robot_states (history e)).
Definition history_hub_status (e : Engine) : list (Q * string * string) :=
  map (fun s => (snap_time s, snap_red_hub s, snap_blue_hub s)) (history e).
Definition history_score (e : Engine) : list (Q * Q * Q) :=
  map (fun s => (snap_time s, snap_red_score s, snap_blue_score s)) (history e).
Definition history_zone_balls (e : Engine) : list (Q * Q * Q * Q) :=
  map (fun s => (snap_time s, snap_red_balls s, snap_neutral_balls s,
                 snap_blue_balls s)) (history e).

(** [SimulationEngine.__init__] *)
Definition SimulationEngine_init : Engine :=
  mkEngine 0
    (mkZoneDict (mkZone config.ZONE_RED 0) (mkZone config.ZONE_BLUE 0)
                (mkZone config.ZONE_NEUTRAL config.TOTAL_BALLS))
    [] config.HUB_ACTIVE config.HUB_ACTIVE 0 0 [].

Definition add_robot (e : Engine) (robot : Robot) : Engine :=
  with_robots e (robots e ++ [robot]).

Definition get_zone_density (e : Engine) (zone_name : string) : Q :=
  match zones_get (zones e) zone_name with
  | None => 0
  | Some z => balls z / config.TOTAL_BALLS
  end.

Definition calculate_intake_rate (e : Engine) (robot : Robot) : Q :=
  let density := get_zone_density e (current_zone_name robot) in
  intake_efficiency robot * density * config.MAX_INTAKE_RATE.

Definition _process_intake (e : Engine) (bot : Robot) (dt : Q)
  : Outcome (Engine * Robot) :=
  let space := capacity bot - inventory bot in
  if Qle_bool space 0 then Returns (e, bot) else
  let rate := calculate_intake_rate e bot in
  let amount := rate * dt in
  match zones_get (zones e) (current_zone_name bot) with
  | None => Raises (KeyError (current_zone_name bot)) (e, bot)
  | Some zone =>
      let possible_from_zone := balls zone in
      let actual_amount := min3 amount space possible_from_zone in
      Returns (with_zones e (zones_set_balls (zones e) (current_zone_name bot)
                               (balls zone - actual_amount)),
               with_inventory bot (inventory bot + actual_amount))
  end.

Definition _on_action_complete (e : Engine) (bot : Robot) (action_name : string)
  : Outcome (Engine * Robot) :=
  let action := action_name in
  if String.prefix "Moving" action then
    match nth_error (split " to " action) 1 with
    | None => Raises IndexError (e, bot)
    | Some target => Returns (e, with_action (with_zone bot target) "Idle")
    end
  else if action =? "Shooting" then
    let count := inventory bot in
    let bot := with_inventory bot 0 in
    let e :=
      if (team bot =? "Red") && (red_hub_status e =? config.HUB_ACTIVE)
      then with_red_score e (red_score e + count)
      else if (team bot =? "Blue") && (blue_hub_status e =? config.HUB_ACTIVE)
      then with_blue_score e (blue_score e + count)
      else e in
    let e := with_zones e (zones_set_balls (zones e) config.ZONE_NEUTRAL
                             (balls (zone_neutral (zones e)) + count)) in
    Returns (e, with_action bot "Idle")
  else if action =? "Passing" then
    let count := inventory bot in
    let bot := with_inventory bot 0 in
    let e :=
      if team bot =? "Red"
      then with_zones e (zones_set_balls (zones e) config.ZONE_RED
                           (balls (zone_red (zones e)) + count))
      else with_zones e (zones_set_balls (zones e) config.ZONE_BLUE
                           (balls (zone_blue (zones e)) + count)) in
    Returns (e, with_action bot "Idle")
  else Returns (e, with_action bot "Idle").

Definition _update_hub_status (e : Engine) : Engine :=
  if Qle_bool (config.MATCH_DURATION - time e) 30 then
    with_hubs e config.HUB_ACTIVE config.HUB_ACTIVE
  else if Qle_bool (time e) config.AUTO_DURATION then
    with_hubs e config.HUB_ACTIVE config.HUB_ACTIVE
  else
    let teleop_time := time e - config.SHIFT_START_TIME in
    if Qltb teleop_time 0 then e
    else
      let shift_index := Qfloor (teleop_time / config.SHIFT_DURATION) in
      if (shift_index mod 2 =? 0)%Z
      then with_hubs e config.HUB_ACTIVE config.HUB_INACTIVE
      else with_hubs e config.HUB_INACTIVE config.HUB_ACTIVE.

(** The body of the [for bot in self.robots] loop of [step]. *)
Definition step_robot (dt : Q) (e : Engine) (bot : Robot)
  : Outcome (Engine * Robot) :=
  let prev_cooldown := action_cooldown bot in
  let action_being_performed := current_action bot in
  match (if (current_action bot =? "Intaking") && Qgtb (action_cooldown bot) 0
         then _process_intake e bot dt
         else Returns (e, bot)) with
  | Raises err s => Raises err s
  | Returns (e1, bot1) =>
      let bot2 := update bot1 dt in
      if Qgtb prev_cooldown 0 && Qle_bool (action_cooldown bot2) 0
      then _on_action_complete e1 bot2 action_being_performed
      else Returns (e1, bot2)
  end.

(** The loop itself, in list order; a raise leaves the robots not yet reached
    as they were. *)
Fixpoint step_robots (dt : Q) (e : Engine) (todo : list Robot)
  : Outcome (Engine * list Robot) :=
  match todo with
  | [] => Returns (e, [])
  | bot :: rest =>
      match step_robot dt e bot with
      | Raises err (e1, bot1) => Raises err (e1, bot1 :: rest)
      | Returns (e1, bot1) =>
          match step_robots dt e1 rest with
          | Returns (e2, rest') => Returns (e2, bot1 :: rest')
          | Raises err (e2, rest') => Raises err (e2, bot1 :: rest')
          end
      end
  end.

Fixpoint robot_states_from (t : Q) (idx : nat) (rs : list Robot) : list RobotState :=
  match rs with
  | [] => []
  | bot :: rest =>
      mkRobotState t idx (team bot) (current_zone_name bot) (current_action bot)
                   (inventory bot) (action_cooldown bot)
      :: robot_states_from t (S idx) rest
  end.

Definition snapshot (e : Engine) : Snapshot :=
  mkSnapshot (time e)
             (balls (zone_red (zones e)))
             (balls (zone_blue (zones e)))
             (balls (zone_neutral (zones e)))
             (robot_states_from (time e) 0 (robots e))
             (red_hub_status e) (blue_hub_status e)
             (red_score e) (blue_score e).

Definition step (e : Engine) (dt : Q) : Outcome Engine :=
  let e1 := with_time e (time e + dt) in
  let e2 := _update_hub_status e1 in
  match step_robots dt e2 (robots e2) with
  | Raises err (e3, rs) => Raises err (with_robots e3 rs)
  | Returns (e3, rs) =>
      let e4 := with_robots e3 rs in
      Returns (with_history e4 (history e4 ++ [snapshot e4]))
  end.

(** *** Commands *)

Definition command_move (e : Engine) (robot_idx : Z) (target_zone : string)
  : Outcome Engine :=
  match py_getitem (robots e) robot_idx with
  | None => Raises IndexError e
  | Some (i, bot) =>
      if is_busy bot then Returns e else
      let current := current_zone_name bot in
      if ((current =? config.ZONE_RED) && (target_zone =? config.ZONE_BLUE))
         || ((current =? config.ZONE_BLUE) && (target_zone =? config.ZONE_RED))
      then Returns e
      else Returns (with_robots e (set_nth (robots e) i
                                     (set_action_transit bot target_zone)))
  end.

Definition command_intake (e : Engine) (robot_idx : Z) (duration : Q)
  : Outcome Engine :=
  match py_getitem (robots e) robot_idx with
  | None => Raises IndexError e
  | Some (i, bot) =>
      if is_busy bot then Returns e else
      Returns (with_robots e (set_nth (robots e) i
                 (with_cooldown (with_action bot "Intaking") duration)))
  end.

(** [duration] of a shot or a pass: [inventory / rate], at least 0.1. *)
Definition dynamic_duration (bot : Robot) : Q :=
  let rate := if Qgtb (balls_shot_per_sec bot) 0
              then balls_shot_per_sec bot else 1 in
  let duration := inventory bot / rate in
  if Qltb duration (1 # 10) then 1 # 10 else duration.

Definition command_shoot (e : Engine) (robot_idx : Z) : Outcome Engine :=
  match py_getitem (robots e) robot_idx with
  | None => Raises IndexError e
  | Some (i, bot) =>
      if is_busy bot then Returns e else
      if negb (current_zone_name bot =? start_zone bot) then Returns e else
      let duration := dynamic_duration bot in
      Returns (with_robots e (set_nth (robots e) i
                 (set_action_shoot (with_cooldown bot duration))))
  end.

Definition command_pass (e : Engine) (robot_idx : Z) : Outcome Engine :=
  match py_getitem (robots e) robot_idx with
  | None => Raises IndexError e
  | Some (i, bot) =>
      if is_busy bot then Returns e else
      if current_zone_name bot =? start_zone bot then Returns e else
      let duration := dynamic_duration bot in
      Returns (with_robots e (set_nth (robots e) i
                 (set_action_pass (with_cooldown bot duration))))
  end.

(** *** Drivers: sequences of calls *)

Inductive Call : Type :=
| CallMove (robot_idx : Z) (target_zone : string)
| CallIntake (robot_idx : Z) (duration : Q)
| CallShoot (robot_idx : Z)
| CallPass (robot_idx : Z)
| CallStep (dt : Q).

Definition call (e : Engine) (c : Call) : Outcome Engine :=
  match c with
  | CallMove i z => command_move e i z
  | CallIntake i d => command_intake e i d
  | CallShoot i => command_shoot e i
  | CallPass i => command_pass e i
  | CallStep dt => step e dt
  end.

(** The engine after a sequence of calls.  A call that raises leaves the engine
    as it was at the raise, and the driver goes on with it: the sequences of a
    driver that stops at the first exception are among these. *)
Fixpoint run (e : Engine) (cs : list Call) : Engine :=
  match cs with
  | [] => e
  | c :: rest => run (state_of (call e c)) rest
  end.

(** *** The conserved quantity *)

Fixpoint sum_inventory (rs : list Robot) : Q :=
  match rs with
  | [] => 0
  | bot :: rest => inventory bot + sum_inventory rest
  end.

Definition sum_zones (zs : ZoneDict) : Q :=
  balls (zone_red zs) + balls (zone_blue zs) + balls (zone_neutral zs).

Definition total_balls (e : Engine) : Q :=
  sum_zones (zones e) + sum_inventory (robots e).

Definition conserved (e : Engine) : Prop :=
  total_balls e == config.TOTAL_BALLS.

Fixpoint sum_state_inventory (rs : list RobotState) : Q :=
  match rs with
  | [] => 0
  | s :: rest => rs_inventory s + sum_state_inventory rest
  end.

Definition snapshot_conserved (s : Snapshot) : Prop :=
  snap_red_balls s + snap_blue_balls s + snap_neutral_balls s
  + sum_state_inventory (snap_robot_states s) == config.TOTAL_BALLS.

(** *** Vocabulary of the statements and sample engines *)

(** What one robot holds plus what the zones hold: the quantity every piece
    of the loop body keeps. *)
Definition local_total (s : Engine * Robot) : Q :=
  sum_zones (zones (fst s)) + inventory (snd s).

(** The loop body touches neither the history, nor the clock, nor the hubs. *)
Definition loop_frame (e e' : Engine) : Prop :=
  history e' = history e /\ time e' = time e
  /\ red_hub_status e' = red_hub_status e
  /\ blue_hub_status e' = blue_hub_status e.

(** The default [config.ROBOT_CONFIGS]: capacity, transit_time,
    balls_shot_per_sec, intake_efficiency. *)
Definition ROBOT_CONFIGS : list (Q * Q * Q * Q) :=
  [ (30, 2, 8, 1); (40, 2, 6, 1); (60, 3, 5, 1) ].

Definition robots_of_team (team start_zone : string) : list Robot :=
  map (fun '(i, (capacity, transit_time, balls_shot_per_sec, intake_efficiency)) =>
         Robot_init team i capacity transit_time balls_shot_per_sec
                    intake_efficiency start_zone 8)
      (combine [1; 2; 3]%Z ROBOT_CONFIGS).

(** The engine [LogisticsEnv.reset] builds (gym_env.py): three robots per
    alliance from [ROBOT_CONFIGS], each preloaded with 8 balls, and the 48
    preloaded balls taken out of the Neutral zone. *)
Definition reset_engine : Engine :=
  let e := fold_left add_robot
             (robots_of_team "Red" config.ZONE_RED
              ++ robots_of_team "Blue" config.ZONE_BLUE)
             SimulationEngine_init in
  let total_preloaded := 48 in
  with_zones e (zones_set_balls (zones e) config.ZONE_NEUTRAL
                  (balls (zone_neutral (zones e)) - total_preloaded)).

Definition sample_calls : list Call :=
  [ CallIntake 0 1; CallMove 3 "Neutral"; CallStep 1; CallShoot 0;
    CallStep (1 # 2); CallStep 1; CallPass 3; CallStep 2 ].

(** The hub and the score of an alliance, by team name. *)
Definition alliance_hub_status (e : Engine) (team : string) : string :=
  if team =? "Red" then red_hub_status e else blue_hub_status e.

Definition alliance_score (e : Engine) (team : string) : Q :=
  if team =? "Red" then red_score e else blue_score e.

Definition shooter : Robot :=
  mkRobot "Red" 1 30 2 8 1 "Red" "Red" 8 1 "Shooting" 0.

(** A single robot of capacity 30 and intake efficiency 1 that starts in
    [start] with 8 balls, taken out of the Neutral zone. *)
Definition scenario_engine (team : string) (transit_time balls_shot_per_sec : Q)
    (start : string) : Engine :=
  let e := add_robot SimulationEngine_init
             (Robot_init team 1 30 transit_time balls_shot_per_sec 1 start 8) in
  with_zones e (zones_set_balls (zones e) config.ZONE_NEUTRAL
                  (balls (zone_neutral (zones e)) - 8)).

Definition scenario_calls : list Call := [ CallIntake 0 1; CallStep 1 ].

(** What the scenario is claimed to yield, between the engine before and the
    engine after: robot 0 gains [gain], Neutral loses [gain], robot 0 is Idle. *)
Definition intake_yields (before after : Engine) (gain : Q) : Prop :=
  exists b0 b1,
    nth_error (robots before) 0 = Some b0
    /\ nth_error (robots after) 0 = Some b1
    /\ inventory b1 == inventory b0 + gain
    /\ balls (zone_neutral (zones after))
       == balls (zone_neutral (zones before)) - gain
    /\ current_action b1 = "Idle".

(** A red robot in the middle of a two-second move. *)
Definition busy_engine : Engine :=
  state_of (command_move reset_engine 0 "Neutral").


(** The call did not go through: an exception escaped. *)
Definition fails_loudly {S : Type} (o : Outcome S) : Prop :=
  exists err s, o = Raises err s.

(** [key in self.zones] *)
Definition known_zone (key : string) : bool :=
  (key =? config.ZONE_RED) || (key =? config.ZONE_BLUE)
  || (key =? config.ZONE_NEUTRAL).

(** *** Bounds of a well-formed engine *)

(** A robot holds between nothing and its capacity, and its intake efficiency
    is the clamped one of [Robot.__init__]. *)
Definition robot_in_bounds (b : Robot) : Prop :=
  0 <= inventory b /\ inventory b <= capacity b
  /\ 0 <= intake_efficiency b /\ intake_efficiency b <= 1.

Definition zones_nonnegative (zs : ZoneDict) : Prop :=
  0 <= balls (zone_red zs) /\ 0 <= balls (zone_blue zs)
  /\ 0 <= balls (zone_neutral zs).

Definition in_bounds (e : Engine) : Prop :=
  zones_nonnegative (zones e) /\ Forall robot_in_bounds (robots e).

(** The [step] calls of a sequence all have [dt >= 0]. *)
Definition forward_call (c : Call) : Prop :=
  match c with
  | CallStep dt => 0 <= dt
  | _ => True
  end.

(** The seconds a sequence of calls adds to the clock. *)
Fixpoint total_dt (cs : list Call) : Q :=
  match cs with
  | [] => 0
  | CallStep dt :: rest => dt + total_dt rest
  | _ :: rest => total_dt rest
  end.

(** The robot is in the middle of an intake that [_process_intake] will look
    its zone up for: action Intaking, cooldown running, room left. *)
Definition intaking_with_room (b : Robot) : bool :=
  (current_action b =? "Intaking") && Qgtb (action_cooldown b) 0
  && negb (Qle_bool (capacity b - inventory b) 0).

(** The crossing test of [command_move]. *)
Definition crossing (current target_zone : string) : bool :=
  ((current =? config.ZONE_RED) && (target_zone =? config.ZONE_BLUE))
  || ((current =? config.ZONE_BLUE) && (target_zone =? config.ZONE_RED)).

(** A match in which the first red robot has been sent to a zone that does not
    exist, has arrived, and has started an intake there. *)
Definition lost_engine : Engine :=
  Eval vm_compute in
    run reset_engine [CallMove 0 "Pit"; CallStep 2; CallIntake 0 1].

(** The reset match after its first red robot was sent to Neutral and two
    seconds went by. *)
Definition moved_engine : Engine :=
  Eval vm_compute in
    state_of (step (state_of (command_move reset_engine 0 "Neutral")) 2).

(** A robot with room for two balls in a Red zone that holds one. *)
Definition nearly_full : Robot :=
  mkRobot "Red" 1 10 2 8 1 "Red" "Red" 8 100 "Intaking" 0.

Definition one_ball_engine : Engine :=
  let e := add_robot SimulationEngine_init nearly_full in
  with_zones e (mkZoneDict (mkZone config.ZONE_RED 1) (mkZone config.ZONE_BLUE 0)
                           (mkZone config.ZONE_NEUTRAL 495)).

(** ** gym_env.py *)

(** [LogisticsEnv._apply_relative_action], on the engine of the environment. *)
Definition _apply_relative_action (e : Engine) (bot_idx action : Z)
    (team : string) : Outcome Engine :=
  let alliance_zone := if team =? "Red" then config.ZONE_RED
                       else config.ZONE_BLUE in
  let opponent_zone := if team =? "Red" then config.ZONE_BLUE
                       else config.ZONE_RED in
  if (action =? 0)%Z then command_move e bot_idx alliance_zone
  else if (action =? 1)%Z then command_move e bot_idx opponent_zone
  else if (action =? 2)%Z then command_move e bot_idx config.ZONE_NEUTRAL
  else if (action =? 3)%Z then command_intake e bot_idx 1
  else if (action =? 4)%Z then command_shoot e bot_idx
  else if (action =? 5)%Z then command_pass e bot_idx
  else Returns e.

(** The [loc] one-hot of [_get_obs]: my zone, opponent zone, Neutral. *)
Definition loc_one_hot (bot : Robot) (my_zone op_zone : string) : list Q :=
  if current_zone_name bot =? my_zone then [1; 0; 0]
  else if current_zone_name bot =? op_zone then [0; 1; 0]
  else if current_zone_name bot =? config.ZONE_NEUTRAL then [0; 0; 1]
  else [0; 0; 0].

(** The [act] one-hot of [_get_obs]: Idle, Moving, Intaking, Shooting, Passing,
    anything else counted as Idle. *)
Definition act_one_hot (a_str : string) : list Q :=
  if a_str =? "Idle" then [1; 0; 0; 0; 0]
  else if String.prefix "Moving" a_str then [0; 1; 0; 0; 0]
  else if a_str =? "Intaking" then [0; 0; 1; 0; 0]
  else if a_str =? "Shooting" then [0; 0; 0; 1; 0]
  else if a_str =? "Passing" then [0; 0; 0; 0; 1]
  else [1; 0; 0; 0; 0].

(** The nine features of one robot; [None] is the [ZeroDivisionError] of
    [bot.inventory / bot.capacity]. *)
Definition bot_obs (bot : Robot) (my_zone op_zone : string) : option (list Q) :=
  if Qeq_bool (capacity bot) 0 then None
  else Some (loc_one_hot bot my_zone op_zone
             ++ [inventory bot / capacity bot]
             ++ act_one_hot (current_action bot)).

(** The [for bot in all_bots_ordered] loop of [_get_obs]. *)
Fixpoint bots_obs (bots : list Robot) (my_zone op_zone : string)
  : option (list Q) :=
  match bots with
  | [] => Some []
  | bot :: rest =>
      match bot_obs bot my_zone op_zone with
      | None => None
      | Some o =>
          match bots_obs rest my_zone op_zone with
          | None => None
          | Some os => Some (o ++ os)
          end
      end
  end.

(** [LogisticsEnv._get_obs]: the list handed to [np.array] (the conversion to
    float32 is not modelled).  [robots[0:3]] and [robots[3:6]] are slices: they
    take what the list has. *)
Definition _get_obs (e : Engine) (team : string) : option (list Q) :=
  let my_zone := if team =? "Red" then config.ZONE_RED else config.ZONE_BLUE in
  let op_zone := if team =? "Red" then config.ZONE_BLUE else config.ZONE_RED in
  let my_bots := if team =? "Red" then firstn 3 (robots e)
                 else firstn 3 (skipn 3 (robots e)) in
  let op_bots := if team =? "Red" then firstn 3 (skipn 3 (robots e))
                 else firstn 3 (robots e) in
  let all_bots_ordered := my_bots ++ op_bots in
  match bots_obs all_bots_ordered my_zone op_zone with
  | None => None
  | Some obs_list =>
      let active (status : string) : Q :=
        if status =? config.HUB_ACTIVE then 1 else 0 in
      let my_hub_active := if team =? "Red" then active (red_hub_status e)
                           else active (blue_hub_status e) in
      let op_hub_active := if team =? "Red" then active (blue_hub_status e)
                           else active (red_hub_status e) in
      let den_my := get_zone_density e my_zone in
      let den_op := get_zone_density e op_zone in
      let den_n := get_zone_density e config.ZONE_NEUTRAL in
      let time_norm := time e / config.MATCH_DURATION in
      Some (obs_list ++ [my_hub_active; op_hub_active; den_my; den_op; den_n;
                         time_norm])
  end.

(** ** visualize_match.py *)

(** [get_robot_state] of [run_and_animate]: the entry of the flat
    [history_robot_states] for robot [bot_idx] at frame [step_idx], six robots a
    frame, the last entry when the index runs past the end; [None] is the
    [IndexError] of an empty history. *)
Definition get_robot_state (e : Engine) (step_idx bot_idx : Z)
  : option RobotState :=
  let flat_idx := (step_idx * 6 + bot_idx)%Z in
  if (Z.of_nat (length (history_robot_states e)) <=? flat_idx)%Z
  then option_map snd (py_getitem (history_robot_states e) (-1))
  else option_map snd (py_getitem (history_robot_states e) flat_idx).



(** * Properties *)

(** ** Sanity checks of the embedding on concrete inputs *)

Example split_moving_red : split " to " "Moving to Red" = ["Moving"; "Red"].
Proof. reflexivity. Qed.

Example split_two_separators :
  split " to " "Moving to A to B" = ["Moving"; "A"; "B"].
Proof. reflexivity. Qed.

Example split_no_separator : split " to " "Shooting" = ["Shooting"].
Proof. reflexivity. Qed.

Example prefix_moving :
  String.prefix "Moving" "Moving to Red" = true
  /\ String.prefix "Moving" "Intaking" = false.
Proof. split; reflexivity. Qed.

Example py_index_last : py_index 3 (-1) = Some 2%nat.
Proof. reflexivity. Qed.

Example py_index_out_of_range : py_index 3 3 = None /\ py_index 3 (-4) = None.
Proof. split; reflexivity. Qed.

(** ** Comparisons, indexing and list update *)

Lemma Qgtb_true (x y : Q) : Qgtb x y = true <-> y < x.
Proof.
  unfold Qgtb. rewrite negb_true_iff, <- not_true_iff_false, Qle_bool_iff.
  split; [apply Qnot_le_lt | apply Qlt_not_le].
Qed.

Lemma Qgtb_false (x y : Q) : Qgtb x y = false <-> x <= y.
Proof. unfold Qgtb. rewrite negb_false_iff. apply Qle_bool_iff. Qed.

Lemma Qltb_true (x y : Q) : Qltb x y = true <-> x < y.
Proof. unfold Qltb. apply (Qgtb_true y x). Qed.

Lemma is_busy_true (b : Robot) : is_busy b = true <-> 0 < action_cooldown b.
Proof. apply Qgtb_true. Qed.

Lemma is_busy_false (b : Robot) : is_busy b = false <-> action_cooldown b <= 0.
Proof. apply Qgtb_false. Qed.

Lemma py_getitem_nth {A : Type} (l : list A) (idx : Z) (i : nat) (a : A) :
  py_getitem l idx = Some (i, a) -> nth_error l i = Some a.
Proof.
  unfold py_getitem. destruct (py_index (length l) idx) as [j|]; [|discriminate].
  destruct (nth_error l j) as [x|] eqn:E; [|discriminate].
  intros [= <- <-]. exact E.
Qed.

Lemma set_nth_same {A : Type} (l : list A) (i : nat) (a : A) :
  nth_error l i = Some a -> set_nth l i a = l.
Proof.
  revert i. induction l as [|h t IH]; intros [|j]; simpl; try discriminate.
  - now intros [= ->].
  - intros H. now rewrite IH.
Qed.

Lemma set_nth_length {A : Type} (l : list A) (i : nat) (a : A) :
  length (set_nth l i a) = length l.
Proof.
  revert i. induction l as [|h t IH]; intros [|j]; simpl; auto.
Qed.

Lemma nth_error_set_nth {A : Type} (l : list A) (i : nat) (a x : A) :
  nth_error l i = Some x -> nth_error (set_nth l i a) i = Some a.
Proof.
  revert i. induction l as [|h t IH]; intros [|j]; simpl; try discriminate; auto.
Qed.

Lemma sum_inventory_set_nth (l : list Robot) (i : nat) (old new : Robot) :
  nth_error l i = Some old ->
  sum_inventory (set_nth l i new)
  == sum_inventory l - inventory old + inventory new.
Proof.
  revert i. induction l as [|h t IH]; intros [|j]; simpl; try discriminate.
  - intros [= ->]. lra.
  - intros H. rewrite (IH _ H). lra.
Qed.

(** ** Conservation *)

Lemma sum_zones_set_balls (zs : ZoneDict) (key : string) (z : Zone) (v : Q) :
  zones_get zs key = Some z ->
  sum_zones (zones_set_balls zs key v) == sum_zones zs - balls z + v.
Proof.
  unfold zones_get, zones_set_balls, sum_zones.
  destruct (key =? config.ZONE_RED); [intros [= <-]; simpl; lra|].
  destruct (key =? config.ZONE_BLUE); [intros [= <-]; simpl; lra|].
  destruct (key =? config.ZONE_NEUTRAL); [intros [= <-]; simpl; lra|].
  discriminate.
Qed.

Lemma _process_intake_total (e : Engine) (bot : Robot) (dt : Q) :
  local_total (state_of (_process_intake e bot dt)) == local_total (e, bot).
Proof.
  unfold _process_intake, local_total.
  destruct (Qle_bool (capacity bot - inventory bot) 0); [reflexivity|].
  destruct (zones_get (zones e) (current_zone_name bot)) as [z|] eqn:Hz;
    [|reflexivity].
  simpl. rewrite (sum_zones_set_balls _ _ _ _ Hz). lra.
Qed.

Lemma update_inventory (b : Robot) (dt : Q) : inventory (update b dt) = inventory b.
Proof.
  unfold update. destruct (Qgtb (action_cooldown b) 0); [|reflexivity].
  simpl. now destruct (Qle_bool (action_cooldown b - dt) 0).
Qed.

Lemma _on_action_complete_total (e : Engine) (bot : Robot) (action : string) :
  local_total (state_of (_on_action_complete e bot action)) == local_total (e, bot).
Proof.
  unfold _on_action_complete, local_total.
  destruct (String.prefix "Moving" action).
  { destruct (nth_error (split " to " action) 1); reflexivity. }
  destruct (action =? "Shooting").
  { simpl.
    rewrite (sum_zones_set_balls _ config.ZONE_NEUTRAL (zone_neutral _))
      by reflexivity.
    destruct ((team bot =? "Red") && (red_hub_status e =? config.HUB_ACTIVE));
      [simpl; lra|].
    destruct ((team bot =? "Blue") && (blue_hub_status e =? config.HUB_ACTIVE));
      simpl; lra. }
  destruct (action =? "Passing"); [|simpl; lra].
  simpl. destruct (team bot =? "Red"); simpl.
  - rewrite (sum_zones_set_balls _ config.ZONE_RED (zone_red _)) by reflexivity.
    lra.
  - rewrite (sum_zones_set_balls _ config.ZONE_BLUE (zone_blue _)) by reflexivity.
    lra.
Qed.

Lemma step_robot_total (dt : Q) (e : Engine) (bot : Robot) :
  local_total (state_of (step_robot dt e bot)) == local_total (e, bot).
Proof.
  unfold step_robot.
  set (o := if (current_action bot =? "Intaking") && Qgtb (action_cooldown bot) 0
            then _process_intake e bot dt else Returns (e, bot)).
  assert (Ho : local_total (state_of o) == local_total (e, bot)).
  { subst o. destruct ((current_action bot =? "Intaking")
                       && Qgtb (action_cooldown bot) 0);
      [apply _process_intake_total | reflexivity]. }
  destruct o as [[e1 bot1]|err s]; [|exact Ho].
  simpl in Ho.
  assert (Hu : local_total (e1, update bot1 dt) == local_total (e, bot)).
  { unfold local_total in *. simpl in *. now rewrite update_inventory. }
  destruct (Qgtb (action_cooldown bot) 0
            && Qle_bool (action_cooldown (update bot1 dt)) 0); [|exact Hu].
  now rewrite _on_action_complete_total.
Qed.

Lemma step_robots_total (dt : Q) (todo : list Robot) (e : Engine) :
  sum_zones (zones (fst (state_of (step_robots dt e todo))))
  + sum_inventory (snd (state_of (step_robots dt e todo)))
  == sum_zones (zones e) + sum_inventory todo.
Proof.
  revert e. induction todo as [|bot rest IH]; intros e; simpl; [reflexivity|].
  pose proof (step_robot_total dt e bot) as Hb. unfold local_total in Hb.
  destruct (step_robot dt e bot) as [[e1 bot1]|err [e1 bot1]]; simpl in *.
  - specialize (IH e1).
    destruct (step_robots dt e1 rest) as [[e2 rest']|err [e2 rest']];
      simpl in *; lra.
  - lra.
Qed.

Lemma _update_hub_status_frame (e : Engine) :
  zones (_update_hub_status e) = zones e
  /\ robots (_update_hub_status e) = robots e
  /\ time (_update_hub_status e) = time e
  /\ history (_update_hub_status e) = history e
  /\ red_score (_update_hub_status e) = red_score e
  /\ blue_score (_update_hub_status e) = blue_score e.
Proof.
  unfold _update_hub_status.
  repeat match goal with |- context [if ?c then _ else _] => destruct c end;
    repeat split.
Qed.

Lemma step_total (e : Engine) (dt : Q) :
  total_balls (state_of (step e dt)) == total_balls e.
Proof.
  unfold step, total_balls.
  set (e2 := _update_hub_status (with_time e (time e + dt))).
  assert (Hz : zones e2 = zones e /\ robots e2 = robots e).
  { destruct (_update_hub_status_frame (with_time e (time e + dt)))
      as (Hz & Hr & _). now split. }
  destruct Hz as [Hz Hr].
  pose proof (step_robots_total dt (robots e2) e2) as H.
  rewrite Hz, Hr in H. rewrite Hr.
  destruct (step_robots dt e2 (robots e)) as [[e3 rs]|err [e3 rs]];
    simpl in *; exact H.
Qed.

Lemma sum_state_inventory_from (t : Q) (rs : list Robot) (idx : nat) :
  sum_state_inventory (robot_states_from t idx rs) = sum_inventory rs.
Proof.
  revert idx. induction rs as [|b rest IH]; intros idx; simpl; [reflexivity|].
  now rewrite IH.
Qed.

Lemma snapshot_conserved_of (e : Engine) :
  conserved e -> snapshot_conserved (snapshot e).
Proof.
  unfold conserved, snapshot_conserved, total_balls, sum_zones, snapshot.
  simpl. now rewrite sum_state_inventory_from.
Qed.

Lemma loop_frame_refl (e : Engine) : loop_frame e e.
Proof. now repeat split. Qed.

Lemma loop_frame_trans (e1 e2 e3 : Engine) :
  loop_frame e1 e2 -> loop_frame e2 e3 -> loop_frame e1 e3.
Proof. unfold loop_frame. intuition congruence. Qed.

Lemma _process_intake_frame (e : Engine) (bot : Robot) (dt : Q) :
  loop_frame e (fst (state_of (_process_intake e bot dt))).
Proof.
  unfold _process_intake.
  destruct (Qle_bool (capacity bot - inventory bot) 0); [apply loop_frame_refl|].
  destruct (zones_get (zones e) (current_zone_name bot));
    now repeat split.
Qed.

Lemma _on_action_complete_frame (e : Engine) (bot : Robot) (action : string) :
  loop_frame e (fst (state_of (_on_action_complete e bot action))).
Proof.
  unfold _on_action_complete.
  repeat match goal with
         | |- context [if ?c then _ else _] => destruct c
         | |- context [match ?c with Some _ => _ | None => _ end] => destruct c
         end; now repeat split.
Qed.

Lemma step_robot_frame (dt : Q) (e : Engine) (bot : Robot) :
  loop_frame e (fst (state_of (step_robot dt e bot))).
Proof.
  unfold step_robot.
  destruct ((current_action bot =? "Intaking") && Qgtb (action_cooldown bot) 0).
  - pose proof (_process_intake_frame e bot dt) as H.
    destruct (_process_intake e bot dt) as [[e1 bot1]|err [e1 bot1]];
      simpl in *; [|exact H].
    destruct (Qgtb (action_cooldown bot) 0
              && Qle_bool (action_cooldown (update bot1 dt)) 0); [|exact H].
    eapply loop_frame_trans; [exact H|apply _on_action_complete_frame].
  - destruct (Qgtb (action_cooldown bot) 0
              && Qle_bool (action_cooldown (update bot dt)) 0);
      [apply _on_action_complete_frame|apply loop_frame_refl].
Qed.

Lemma step_robots_frame (dt : Q) (todo : list Robot) (e : Engine) :
  loop_frame e (fst (state_of (step_robots dt e todo))).
Proof.
  revert e. induction todo as [|bot rest IH]; intros e; simpl;
    [apply loop_frame_refl|].
  pose proof (step_robot_frame dt e bot) as Hb.
  destruct (step_robot dt e bot) as [[e1 bot1]|err [e1 bot1]]; simpl in *;
    [|exact Hb].
  specialize (IH e1).
  destruct (step_robots dt e1 rest) as [[e2 rest']|err [e2 rest']];
    simpl in *; eapply loop_frame_trans; eassumption.
Qed.

Lemma step_robots_history (dt : Q) (todo : list Robot) (e : Engine) :
  history (fst (state_of (step_robots dt e todo))) = history e.
Proof. apply step_robots_frame. Qed.

Lemma step_history (e : Engine) (dt : Q) :
  conserved e ->
  exists new, history (state_of (step e dt)) = history e ++ new
              /\ Forall snapshot_conserved new.
Proof.
  intros Hc. pose proof (step_total e dt) as Ht. unfold step in *.
  set (e2 := _update_hub_status (with_time e (time e + dt))) in *.
  assert (Hh : history e2 = history e).
  { now destruct (_update_hub_status_frame (with_time e (time e + dt)))
      as (_ & _ & _ & Hh & _). }
  pose proof (step_robots_history dt (robots e2) e2) as Hs.
  destruct (step_robots dt e2 (robots e2)) as [[e3 rs]|err [e3 rs]];
    simpl in *.
  - exists [snapshot (with_robots e3 rs)]. split; [congruence|].
    constructor; [|constructor]. apply snapshot_conserved_of.
    unfold conserved in *. now rewrite <- Hc, <- Ht.
  - exists []. split; [rewrite app_nil_r; congruence | constructor].
Qed.

Lemma step_history_length (e : Engine) (dt : Q) :
  returned (step e dt) = true ->
  length (history (state_of (step e dt))) = S (length (history e)).
Proof.
  unfold step.
  set (e2 := _update_hub_status (with_time e (time e + dt))).
  assert (Hh : history e2 = history e).
  { now destruct (_update_hub_status_frame (with_time e (time e + dt)))
      as (_ & _ & _ & Hh & _). }
  pose proof (step_robots_history dt (robots e2) e2) as Hs.
  destruct (step_robots dt e2 (robots e2)) as [[e3 rs]|err [e3 rs]];
    simpl in *; [|discriminate].
  intros _. rewrite length_app, Hs, Hh. simpl. lia.
Qed.

(** The commands move no ball and record nothing. *)
Lemma with_robots_set_nth_total (e : Engine) (i : nat) (old new : Robot) :
  nth_error (robots e) i = Some old ->
  inventory new = inventory old ->
  total_balls (with_robots e (set_nth (robots e) i new)) == total_balls e.
Proof.
  intros Hn Hi. unfold total_balls. simpl.
  rewrite (sum_inventory_set_nth _ _ _ _ Hn), Hi. lra.
Qed.

Lemma command_frame (e : Engine) (c : Call) :
  (forall dt, c <> CallStep dt) ->
  total_balls (state_of (call e c)) == total_balls e
  /\ history (state_of (call e c)) = history e.
Proof.
  intros Hc.
  destruct c as [idx z|idx d|idx|idx|dt]; simpl;
    [unfold command_move|unfold command_intake|unfold command_shoot
    |unfold command_pass|now elim (Hc dt)];
    (destruct (py_getitem (robots e) idx) as [[i bot]|] eqn:Hg;
     [apply py_getitem_nth in Hg|split; reflexivity]);
    (destruct (is_busy bot); [split; reflexivity|]).
  - destruct (_ || _); (split; [|reflexivity]); [reflexivity|].
    now apply with_robots_set_nth_total with (old := bot).
  - split; [|reflexivity]. now apply with_robots_set_nth_total with (old := bot).
  - destruct (negb _); (split; [|reflexivity]); [reflexivity|].
    now apply with_robots_set_nth_total with (old := bot).
  - destruct (_ =? _); (split; [|reflexivity]); [reflexivity|].
    now apply with_robots_set_nth_total with (old := bot).
Qed.

Lemma call_conserved (e : Engine) (c : Call) :
  conserved e ->
  conserved (state_of (call e c))
  /\ exists new, history (state_of (call e c)) = history e ++ new
                 /\ Forall snapshot_conserved new.
Proof.
  intros Hc.
  assert (Hd : (exists dt, c = CallStep dt) \/ forall dt, c <> CallStep dt).
  { destruct c; try (right; discriminate). left. now eexists. }
  destruct Hd as [[dt ->]|Hn].
  - split; [|now apply step_history].
    unfold conserved in *. simpl. now rewrite step_total.
  - destruct (command_frame e c Hn) as [Ht Hh]. split.
    + unfold conserved in *. now rewrite Ht.
    + exists []. rewrite app_nil_r. split; [exact Hh | constructor].
Qed.

Example reset_engine_conserved : conserved reset_engine.
Proof. reflexivity. Qed.

(** C1. Conservation: when the balls of the three zones plus the inventories of
    all robots add up to [TOTAL_BALLS] in the engine a driver starts from, they
    add up to [TOTAL_BALLS] after every sequence of commands and [step] calls,
    and in every snapshot the sequence has appended to the history (the zone
    counts and the robot inventories one [step] recorded together).  Stated in
    exact arithmetic. *)
Theorem conservation_of_balls (e : Engine) (cs : list Call) :
  conserved e ->
  conserved (run e cs)
  /\ exists new, history (run e cs) = history e ++ new
                 /\ Forall snapshot_conserved new.
Proof.
  revert e. induction cs as [|c rest IH]; intros e Hc; simpl.
  - split; [exact Hc|]. exists []. now rewrite app_nil_r.
  - destruct (call_conserved e c Hc) as (Hc1 & new1 & Hh1 & Hf1).
    destruct (IH _ Hc1) as (Hc2 & new2 & Hh2 & Hf2).
    split; [exact Hc2|]. exists (new1 ++ new2). split.
    + now rewrite Hh2, Hh1, app_assoc.
    + apply Forall_app. now split.
Qed.

Lemma conservation_of_balls_witness :
  conserved reset_engine
  /\ conserved (run reset_engine sample_calls)
  /\ exists new, history (run reset_engine sample_calls)
                 = history reset_engine ++ new
                 /\ Forall snapshot_conserved new.
Proof.
  split; [reflexivity|].
  apply (conservation_of_balls reset_engine sample_calls). reflexivity.
Defined.

(** ** Completion of a shot *)

Lemma update_falling_edge (b : Robot) (dt : Q) :
  0 < action_cooldown b -> action_cooldown b - dt <= 0 ->
  update b dt = with_action (with_cooldown (with_cooldown b (action_cooldown b - dt)) 0)
                            "Idle".
Proof.
  intros Hp Hz. unfold update.
  apply Qgtb_true in Hp. rewrite Hp. simpl.
  apply Qle_bool_iff in Hz. now rewrite Hz.
Qed.

Lemma step_robot_falling_edge (dt : Q) (e : Engine) (bot : Robot) :
  (current_action bot =? "Intaking") = false ->
  0 < action_cooldown bot -> action_cooldown bot - dt <= 0 ->
  step_robot dt e bot
  = _on_action_complete e (update bot dt) (current_action bot).
Proof.
  intros Ha Hp Hz. unfold step_robot. rewrite Ha. simpl.
  rewrite (update_falling_edge _ _ Hp Hz). simpl.
  apply Qgtb_true in Hp. now rewrite Hp.
Qed.

(** C2. A robot of team Red or Blue whose [Shooting] action completes in a tick
    (cooldown positive before the tick, not positive after the decrement) ends
    the tick with inventory 0 and action [Idle]; the Neutral zone has gained
    exactly the inventory it held, whatever the hub status; its alliance's score
    has gained exactly that inventory when its alliance's hub is [ACTIVE] and is
    unchanged otherwise, so that for a non-empty inventory the score grows by
    the inventory if and only if the hub is [ACTIVE]. *)
Theorem shooting_completion (dt : Q) (e : Engine) (bot : Robot) :
  team bot = "Red" \/ team bot = "Blue" ->
  current_action bot = "Shooting" ->
  0 < action_cooldown bot ->
  action_cooldown bot - dt <= 0 ->
  exists e' bot',
    step_robot dt e bot = Returns (e', bot')
    /\ inventory bot' = 0
    /\ current_action bot' = "Idle"
    /\ balls (zone_neutral (zones e'))
       == balls (zone_neutral (zones e)) + inventory bot
    /\ (alliance_hub_status e (team bot) = config.HUB_ACTIVE ->
        alliance_score e' (team bot)
        == alliance_score e (team bot) + inventory bot)
    /\ (alliance_hub_status e (team bot) <> config.HUB_ACTIVE ->
        alliance_score e' (team bot) = alliance_score e (team bot))
    /\ (~ inventory bot == 0 ->
        (alliance_score e' (team bot)
         == alliance_score e (team bot) + inventory bot
         <-> alliance_hub_status e (team bot) = config.HUB_ACTIVE)).
Proof.
  intros Ht Ha Hp Hz.
  rewrite step_robot_falling_edge by (try rewrite Ha; auto).
  rewrite (update_falling_edge _ _ Hp Hz), Ha.
  unfold _on_action_complete, alliance_hub_status, alliance_score.
  cbn [String.prefix String.eqb Ascii.eqb Bool.eqb].
  cbn [team inventory with_action with_cooldown with_inventory].
  destruct Ht as [Ht|Ht]; rewrite Ht; cbn [String.eqb Ascii.eqb Bool.eqb andb].
  - destruct (red_hub_status e =? config.HUB_ACTIVE) eqn:Hh;
      [apply String.eqb_eq in Hh|apply String.eqb_neq in Hh];
      eexists _, _; (split; [reflexivity|]); simpl;
      (split; [reflexivity|]); (split; [reflexivity|]); (split; [reflexivity|]);
      (split; [intros Hx; first [reflexivity | now elim Hh]|]);
      (split; [intros Hx; first [reflexivity | now elim Hx]|]);
      intros Hne; split; intros Hq; try assumption; try reflexivity;
      try (now elim Hh).
    exfalso. apply Hne. lra.
  - destruct (blue_hub_status e =? config.HUB_ACTIVE) eqn:Hh;
      [apply String.eqb_eq in Hh|apply String.eqb_neq in Hh];
      eexists _, _; (split; [reflexivity|]); simpl;
      (split; [reflexivity|]); (split; [reflexivity|]); (split; [reflexivity|]);
      (split; [intros Hx; first [reflexivity | now elim Hh]|]);
      (split; [intros Hx; first [reflexivity | now elim Hx]|]);
      intros Hne; split; intros Hq; try assumption; try reflexivity;
      try (now elim Hh).
    exfalso. apply Hne. lra.
Qed.

Lemma shooting_completion_witness :
  exists e' bot',
    step_robot 1 reset_engine shooter = Returns (e', bot')
    /\ inventory bot' = 0
    /\ balls (zone_neutral (zones e')) == 456 + 8
    /\ red_score e' == 0 + 8.
Proof.
  destruct (shooting_completion 1 reset_engine shooter)
    as (e' & bot' & Hs & Hi & _ & Hn & Ha & _).
  - left. reflexivity.
  - reflexivity.
  - reflexivity.
  - vm_compute. discriminate.
  - exists e', bot'. repeat split; [exact Hs | exact Hi | exact Hn |].
    apply Ha. reflexivity.
Defined.

(** ** The concrete intake scenario *)

(** C3 as stated, refuted: with the robot in Red, whose zone holds no ball, the
    claimed transfer of [1 * (496/504) * 6] does not happen. *)
Lemma intake_scenario_counterexample :
  ~ intake_yields (scenario_engine "Red" 2 8 "Red")
                  (run (scenario_engine "Red" 2 8 "Red") scenario_calls)
                  (1 * (496 / 504) * 6).
Proof.
  intros (b0 & b1 & H0 & H1 & Hi & _).
  vm_compute in H0, H1. injection H0 as <-. injection H1 as <-.
  vm_compute in Hi. discriminate Hi.
Qed.

(** C3, amended. Intake draws on the zone the robot is in.  In the scenario the
    robot is in Red, which holds no ball: after [intake(1)] and one [step(1)]
    its inventory and the Neutral zone are unchanged and it is Idle.  The same
    robot placed in Neutral gains exactly [1 * (496/504) * 6], Neutral loses as
    much, and it is Idle. *)
Theorem intake_scenario (team : string) (transit_time balls_shot_per_sec : Q) :
  intake_yields (scenario_engine team transit_time balls_shot_per_sec "Red")
    (run (scenario_engine team transit_time balls_shot_per_sec "Red")
         scenario_calls)
    0
  /\ intake_yields (scenario_engine team transit_time balls_shot_per_sec "Neutral")
       (run (scenario_engine team transit_time balls_shot_per_sec "Neutral")
            scenario_calls)
       (1 * (496 / 504) * 6).
Proof.
  split.
  - eexists _, _. split; [reflexivity|]. split; [cbv; reflexivity|].
    cbn [inventory current_action]. repeat split; vm_compute; reflexivity.
  - eexists _, _. split; [reflexivity|]. split; [cbv; reflexivity|].
    cbn [inventory current_action]. repeat split; vm_compute; reflexivity.
Qed.

(** ** The hub schedule *)

Lemma step_hubs (e : Engine) (dt : Q) :
  let e2 := _update_hub_status (with_time e (time e + dt)) in
  time (state_of (step e dt)) = time e + dt
  /\ red_hub_status (state_of (step e dt)) = red_hub_status e2
  /\ blue_hub_status (state_of (step e dt)) = blue_hub_status e2.
Proof.
  intros e2. unfold step. fold e2.
  assert (Ht : time e2 = time e + dt).
  { now destruct (_update_hub_status_frame (with_time e (time e + dt)))
      as (_ & _ & Ht & _). }
  destruct (step_robots_frame dt (robots e2) e2) as (_ & Hc & Hr & Hb).
  destruct (step_robots dt e2 (robots e2)) as [[e3 rs]|err [e3 rs]];
    simpl in *; repeat split; congruence.
Qed.

Lemma hubs_in_shift (e : Engine) (t : Q) (k : Z) :
  time e == t ->
  config.AUTO_DURATION < t ->
  t < config.MATCH_DURATION - 30 ->
  Qfloor ((t - config.SHIFT_START_TIME) / config.SHIFT_DURATION) = k ->
  (0 <= k)%Z ->
  _update_hub_status e
  = if (k mod 2 =? 0)%Z
    then with_hubs e config.HUB_ACTIVE config.HUB_INACTIVE
    else with_hubs e config.HUB_INACTIVE config.HUB_ACTIVE.
Proof.
  unfold config.AUTO_DURATION, config.MATCH_DURATION, config.SHIFT_START_TIME,
    config.SHIFT_DURATION.
  intros Ht Ha Hm Hk Hpos. unfold _update_hub_status.
  unfold config.AUTO_DURATION, config.MATCH_DURATION, config.SHIFT_START_TIME,
    config.SHIFT_DURATION.
  destruct (Qle_bool (160 - time e) 30) eqn:H1;
    [apply Qle_bool_iff in H1; lra|].
  destruct (Qle_bool (time e) 20) eqn:H2;
    [apply Qle_bool_iff in H2; lra|].
  assert (Hfl : Qfloor ((time e - 30) / 25) = k) by now rewrite Ht.
  destruct (Qltb (time e - 30) 0) eqn:H3; [|now rewrite Hfl].
  exfalso. apply Qltb_true in H3.
  assert (Hlt : (time e - 30) / 25 < 0).
  { apply Qlt_shift_div_r; [reflexivity | lra]. }
  pose proof (Qfloor_le ((time e - 30) / 25)) as Hle.
  assert (Hz : inject_Z (Qfloor ((time e - 30) / 25)) < inject_Z 0)
    by (eapply Qle_lt_trans; [exact Hle | exact Hlt]).
  rewrite <- Zlt_Qlt in Hz. lia.
Qed.

Lemma hubs_in_endgame (e : Engine) :
  config.MATCH_DURATION - time e <= 30 ->
  _update_hub_status e = with_hubs e config.HUB_ACTIVE config.HUB_ACTIVE.
Proof.
  intros H. unfold _update_hub_status. apply Qle_bool_iff in H. now rewrite H.
Qed.

(** C4. With the constants of config.py, a [step] that brings the clock to 30
    leaves the Red hub ACTIVE and the Blue hub INACTIVE; one that brings it to
    55 leaves Red INACTIVE and Blue ACTIVE; one that brings it to 130 leaves
    both ACTIVE.  This holds whether or not the call returns. *)
Theorem hub_cycle (e : Engine) (dt : Q) :
  (time e + dt == 30 ->
   red_hub_status (state_of (step e dt)) = config.HUB_ACTIVE
   /\ blue_hub_status (state_of (step e dt)) = config.HUB_INACTIVE)
  /\ (time e + dt == 55 ->
      red_hub_status (state_of (step e dt)) = config.HUB_INACTIVE
      /\ blue_hub_status (state_of (step e dt)) = config.HUB_ACTIVE)
  /\ (time e + dt == 130 ->
      red_hub_status (state_of (step e dt)) = config.HUB_ACTIVE
      /\ blue_hub_status (state_of (step e dt)) = config.HUB_ACTIVE).
Proof.
  destruct (step_hubs e dt) as (_ & -> & ->).
  set (e1 := with_time e (time e + dt)).
  change (time e + dt) with (time e1).
  assert (H30 : time e1 == 30 ->
                _update_hub_status e1
                = with_hubs e1 config.HUB_ACTIVE config.HUB_INACTIVE).
  { intros Ht. apply (hubs_in_shift e1 30 0 Ht); first [reflexivity | lia]. }
  assert (H55 : time e1 == 55 ->
                _update_hub_status e1
                = with_hubs e1 config.HUB_INACTIVE config.HUB_ACTIVE).
  { intros Ht. apply (hubs_in_shift e1 55 1 Ht); first [reflexivity | lia]. }
  assert (H130 : time e1 == 130 ->
                 _update_hub_status e1
                 = with_hubs e1 config.HUB_ACTIVE config.HUB_ACTIVE).
  { intros Ht. apply hubs_in_endgame. unfold config.MATCH_DURATION. lra. }
  split; [|split]; intros Ht;
    [rewrite (H30 Ht)|rewrite (H55 Ht)|rewrite (H130 Ht)]; split; reflexivity.
Qed.

Lemma hub_cycle_witness :
  (red_hub_status (state_of (step SimulationEngine_init 30)) = config.HUB_ACTIVE
   /\ blue_hub_status (state_of (step SimulationEngine_init 30))
      = config.HUB_INACTIVE)
  /\ (red_hub_status (state_of (step reset_engine 55)) = config.HUB_INACTIVE
      /\ blue_hub_status (state_of (step reset_engine 55)) = config.HUB_ACTIVE)
  /\ (red_hub_status (state_of (step reset_engine 130)) = config.HUB_ACTIVE
      /\ blue_hub_status (state_of (step reset_engine 130)) = config.HUB_ACTIVE).
Proof.
  split; [|split].
  - apply (proj1 (hub_cycle SimulationEngine_init 30)). reflexivity.
  - apply (proj1 (proj2 (hub_cycle reset_engine 55))). reflexivity.
  - apply (proj2 (proj2 (hub_cycle reset_engine 130))). reflexivity.
Defined.

(** ** The command surface *)

(** C5. A command addressed to a busy robot (cooldown > 0) returns without an
    exception and leaves the whole engine, hence that robot's action and
    cooldown, as it was: [move] to any zone, [intake] of any duration, [shoot]
    and [pass]. *)
Theorem busy_exclusion (e : Engine) (robot_idx : Z) (i : nat) (bot : Robot) :
  py_getitem (robots e) robot_idx = Some (i, bot) ->
  0 < action_cooldown bot ->
  (forall target_zone, command_move e robot_idx target_zone = Returns e)
  /\ (forall duration, command_intake e robot_idx duration = Returns e)
  /\ command_shoot e robot_idx = Returns e
  /\ command_pass e robot_idx = Returns e.
Proof.
  intros Hg Hb. apply is_busy_true in Hb.
  unfold command_move, command_intake, command_shoot, command_pass.
  rewrite Hg, Hb. repeat split.
Qed.

Example busy_engine_robot_0 :
  py_getitem (robots busy_engine) 0
  = Some (0%nat, mkRobot "Red" 1 30 2 8 1 "Red" "Red" 8 2 "Moving to Neutral" 0).
Proof. reflexivity. Qed.

Lemma busy_exclusion_witness :
  (forall target_zone, command_move busy_engine 0 target_zone = Returns busy_engine)
  /\ (forall duration, command_intake busy_engine 0 duration = Returns busy_engine)
  /\ command_shoot busy_engine 0 = Returns busy_engine
  /\ command_pass busy_engine 0 = Returns busy_engine.
Proof.
  apply (busy_exclusion busy_engine 0 0
           (mkRobot "Red" 1 30 2 8 1 "Red" "Red" 8 2 "Moving to Neutral" 0)).
  - reflexivity.
  - reflexivity.
Defined.

(** C6. [move] of a robot that is in Red to Blue, or of a robot that is in Blue
    to Red, returns with the engine unchanged, whatever the rest of the state
    (busy or not, any inventory, any hub status). *)
Theorem no_direct_crossing (e : Engine) (robot_idx : Z) (i : nat) (bot : Robot)
    (target_zone : string) :
  py_getitem (robots e) robot_idx = Some (i, bot) ->
  (current_zone_name bot = config.ZONE_RED /\ target_zone = config.ZONE_BLUE)
  \/ (current_zone_name bot = config.ZONE_BLUE /\ target_zone = config.ZONE_RED) ->
  command_move e robot_idx target_zone = Returns e.
Proof.
  intros Hg Hx. unfold command_move. rewrite Hg.
  destruct (is_busy bot); [reflexivity|].
  destruct Hx as [[-> ->]|[-> ->]]; reflexivity.
Qed.

Lemma no_direct_crossing_witness :
  command_move reset_engine 0 "Blue" = Returns reset_engine
  /\ command_move reset_engine 3 "Red" = Returns reset_engine.
Proof.
  split.
  - apply (no_direct_crossing reset_engine 0 0
             (Robot_init "Red" 1 30 2 8 1 "Red" 8) "Blue").
    + reflexivity.
    + left. split; reflexivity.
  - apply (no_direct_crossing reset_engine 3 3
             (Robot_init "Blue" 1 30 2 8 1 "Blue" 8) "Red").
    + reflexivity.
    + right. split; reflexivity.
Defined.








(** ** Robot indices *)





(** Each command, given index -1, rewrites the last robot and no other. *)
Example commands_on_last_robot :
  option_map current_action
    (nth_error (robots (state_of (command_move reset_engine (-1) "Neutral"))) 5)
  = Some "Moving to Neutral"
  /\ option_map current_action
       (nth_error (robots (state_of (command_shoot reset_engine (-1)))) 5)
     = Some "Shooting"
  /\ option_map current_action
       (nth_error (robots (state_of (command_pass moved_engine (-6)))) 0)
     = Some "Passing"
  /\ firstn 5 (robots (state_of (command_shoot reset_engine (-1))))
     = firstn 5 (robots reset_engine).
Proof. repeat split; vm_compute; reflexivity. Qed.

Example intake_on_last_robot :
  option_map current_action (nth_error (robots reset_engine) 5) = Some "Idle"
  /\ option_map current_action
       (nth_error (robots (state_of (command_intake reset_engine (-1) 1))) 5)
     = Some "Intaking".
Proof. split; reflexivity. Qed.

Example index_out_of_range :
  command_intake reset_engine 6 1 = Raises IndexError reset_engine
  /\ command_intake reset_engine (-7) 1 = Raises IndexError reset_engine.
Proof. split; reflexivity. Qed.

(** ** Intake of non-positive duration *)

(** The loop body leaves a robot that is not busy, and the engine, alone. *)
Lemma step_robot_not_busy (dt : Q) (e : Engine) (bot : Robot) :
  is_busy bot = false -> step_robot dt e bot = Returns (e, bot).
Proof.
  unfold is_busy, step_robot. intros H.
  rewrite H, andb_false_r. cbv beta iota zeta.
  unfold update. now rewrite !H.
Qed.

Lemma step_robots_keeps (dt : Q) (todo : list Robot) (i : nat) (bot : Robot)
    (e : Engine) :
  nth_error todo i = Some bot -> is_busy bot = false ->
  nth_error (snd (state_of (step_robots dt e todo))) i = Some bot.
Proof.
  intros Hn Hb. revert i e Hn.
  induction todo as [|h rest IH]; intros [|j] e Hn; simpl in *; try discriminate.
  - injection Hn as ->. rewrite (step_robot_not_busy dt e bot Hb).
    now destruct (step_robots dt e rest) as [[e2 rest']|err [e2 rest']].
  - destruct (step_robot dt e h) as [[e1 h1]|err [e1 h1]]; simpl; [|exact Hn].
    specialize (IH j e1 Hn).
    now destruct (step_robots dt e1 rest) as [[e2 rest']|err [e2 rest']].
Qed.

Lemma step_keeps (e : Engine) (dt : Q) (i : nat) (bot : Robot) :
  nth_error (robots e) i = Some bot -> is_busy bot = false ->
  nth_error (robots (state_of (step e dt))) i = Some bot.
Proof.
  intros Hn Hb. unfold step.
  set (e2 := _update_hub_status (with_time e (time e + dt))).
  assert (Hr : robots e2 = robots e).
  { now destruct (_update_hub_status_frame (with_time e (time e + dt)))
      as (_ & Hr & _). }
  rewrite Hr.
  pose proof (step_robots_keeps dt (robots e) i bot e2 Hn Hb) as H.
  now destruct (step_robots dt e2 (robots e)) as [[e3 rs]|err [e3 rs]].
Qed.

Lemma steps_keep (dts : list Q) (e : Engine) (i : nat) (bot : Robot) :
  nth_error (robots e) i = Some bot -> is_busy bot = false ->
  nth_error (robots (run e (map CallStep dts))) i = Some bot.
Proof.
  intros Hn Hb. revert e Hn.
  induction dts as [|dt rest IH]; intros e Hn; simpl; [exact Hn|].
  apply IH. now apply step_keeps.
Qed.

Lemma py_getitem_set_nth {A : Type} (l : list A) (idx : Z) (i : nat) (a x : A) :
  py_getitem l idx = Some (i, a) ->
  py_getitem (set_nth l i x) idx = Some (i, x).
Proof.
  unfold py_getitem. rewrite set_nth_length.
  destruct (py_index (length l) idx) as [j|]; [|discriminate].
  destruct (nth_error l j) as [y|] eqn:E; [|discriminate].
  intros [= <- <-]. now rewrite (nth_error_set_nth l j x y E).
Qed.

(** C10. [intake] with a duration <= 0 on a robot that is not busy is accepted:
    the robot's action becomes [Intaking] and its cooldown the given duration,
    so it is still not busy although its action is not [Idle] (with duration 0:
    cooldown 0 and action [Intaking]).  The loop body of [step] then changes
    neither this robot nor the engine, whatever [dt]: no transfer, no falling
    edge; after any number of [step] calls the robot is exactly as the command
    left it.  A further command is accepted and overwrites the action. *)
Theorem nonpositive_intake_never_resolves (e : Engine) (robot_idx : Z) (i : nat)
    (bot : Robot) (duration : Q) :
  py_getitem (robots e) robot_idx = Some (i, bot) ->
  action_cooldown bot <= 0 ->
  duration <= 0 ->
  let stuck := with_cooldown (with_action bot "Intaking") duration in
  let e1 := with_robots e (set_nth (robots e) i stuck) in
  command_intake e robot_idx duration = Returns e1
  /\ nth_error (robots e1) i = Some stuck
  /\ current_action stuck = "Intaking"
  /\ action_cooldown stuck = duration
  /\ is_busy stuck = false
  /\ current_action stuck <> "Idle"
  /\ (duration == 0 -> action_cooldown stuck == 0)
  /\ (forall dt e0, step_robot dt e0 stuck = Returns (e0, stuck))
  /\ (forall dts, nth_error (robots (run e1 (map CallStep dts))) i = Some stuck)
  /\ (forall target_zone,
         current_zone_name bot = config.ZONE_NEUTRAL ->
         command_move e1 robot_idx target_zone
         = Returns (with_robots e1 (set_nth (robots e1) i
                                      (set_action_transit stuck target_zone)))).
Proof.
  intros Hg Hidle Hd stuck e1.
  pose proof (py_getitem_nth _ _ _ _ Hg) as Hn.
  assert (Hb : is_busy bot = false) by now apply is_busy_false.
  assert (Hs : is_busy stuck = false) by now apply is_busy_false.
  assert (Hn1 : nth_error (robots e1) i = Some stuck).
  { simpl. now apply nth_error_set_nth with (x := bot). }
  split; [unfold command_intake; now rewrite Hg, Hb|].
  split; [exact Hn1|].
  split; [reflexivity|]. split; [reflexivity|]. split; [exact Hs|].
  split; [discriminate|]. split; [now intros H|].
  split; [intros dt e0; now apply step_robot_not_busy|].
  split; [intros dts; now apply steps_keep|].
  intros z Hz. unfold command_move.
  assert (Hg1 : py_getitem (robots e1) robot_idx = Some (i, stuck))
    by (simpl; now apply py_getitem_set_nth with (a := bot)).
  rewrite Hg1, Hs.
  change (current_zone_name stuck) with (current_zone_name bot). now rewrite Hz.
Qed.

Lemma nonpositive_intake_never_resolves_witness :
  let stuck := with_cooldown
                 (with_action (Robot_init "Red" 1 30 2 8 1 "Red" 8) "Intaking") 0 in
  command_intake reset_engine 0 0
  = Returns (with_robots reset_engine (set_nth (robots reset_engine) 0 stuck))
  /\ is_busy stuck = false
  /\ nth_error
       (robots (run (with_robots reset_engine
                       (set_nth (robots reset_engine) 0 stuck))
                    (map CallStep [1; 1 # 2; 3])))
       0
     = Some stuck.
Proof.
  destruct (nonpositive_intake_never_resolves reset_engine 0 0
              (Robot_init "Red" 1 30 2 8 1 "Red" 8) 0)
    as (Hc & _ & _ & _ & Hb & _ & _ & _ & Hr & _).
  - reflexivity.
  - vm_compute. discriminate.
  - vm_compute. discriminate.
  - split; [exact Hc|]. split; [exact Hb|]. exact (Hr [1; 1 # 2; 3]).
Defined.

(** ** [step] with a non-positive [dt] *)

Lemma zones_get_known (zs : ZoneDict) (key : string) :
  known_zone key = true -> exists z, zones_get zs key = Some z.
Proof.
  unfold known_zone, zones_get.
  destruct (key =? config.ZONE_RED); [now eexists|].
  destruct (key =? config.ZONE_BLUE); [now eexists|].
  destruct (key =? config.ZONE_NEUTRAL); [now eexists|discriminate].
Qed.

Lemma _process_intake_known (e : Engine) (bot : Robot) (dt : Q) :
  known_zone (current_zone_name bot) = true ->
  exists e1 bot1,
    _process_intake e bot dt = Returns (e1, bot1)
    /\ action_cooldown bot1 = action_cooldown bot.
Proof.
  intros Hk. unfold _process_intake.
  destruct (Qle_bool (capacity bot - inventory bot) 0); [now eexists _, _|].
  destruct (zones_get_known (zones e) _ Hk) as [z ->]. now eexists _, _.
Qed.

(** With [dt <= 0] the cooldown tick produces no falling edge. *)
Lemma no_falling_edge (dt : Q) (bot bot1 : Robot) :
  dt <= 0 -> action_cooldown bot1 = action_cooldown bot ->
  Qgtb (action_cooldown bot) 0 && Qle_bool (action_cooldown (update bot1 dt)) 0
  = false.
Proof.
  intros Hdt Hc. destruct (Qgtb (action_cooldown bot) 0) eqn:Hp; [|reflexivity].
  simpl. unfold update. rewrite Hc, Hp. simpl.
  apply Qgtb_true in Hp.
  assert (Hn : Qle_bool (action_cooldown bot - dt) 0 = false).
  { apply not_true_iff_false. rewrite Qle_bool_iff. lra. }
  rewrite Hn. simpl. exact Hn.
Qed.

Lemma step_robot_nonpositive_dt (dt : Q) (e : Engine) (bot : Robot) :
  dt <= 0 -> known_zone (current_zone_name bot) = true ->
  exists s, step_robot dt e bot = Returns s.
Proof.
  intros Hdt Hk. unfold step_robot.
  destruct ((current_action bot =? "Intaking") && Qgtb (action_cooldown bot) 0).
  - destruct (_process_intake_known e bot dt Hk) as (e1 & bot1 & -> & Hc).
    rewrite (no_falling_edge dt bot bot1 Hdt Hc). now eexists.
  - rewrite (no_falling_edge dt bot bot Hdt eq_refl). now eexists.
Qed.

Lemma step_robots_nonpositive_dt (dt : Q) (todo : list Robot) (e : Engine) :
  dt <= 0 ->
  Forall (fun b => known_zone (current_zone_name b) = true) todo ->
  exists s, step_robots dt e todo = Returns s.
Proof.
  intros Hdt Hall. revert e.
  induction Hall as [|bot rest Hk _ IH]; intros e; simpl; [now eexists|].
  destruct (step_robot_nonpositive_dt dt e bot Hdt Hk) as [[e1 bot1] ->].
  destruct (IH e1) as [[e2 rest'] ->]. now eexists.
Qed.

Lemma Qfloor_unique (x : Q) (k : Z) :
  inject_Z k <= x -> x < inject_Z (k + 1) -> Qfloor x = k.
Proof.
  intros Hl Hu.
  pose proof (Qfloor_le x) as H1. pose proof (Qlt_floor x) as H2.
  assert (Ha : inject_Z (Qfloor x) < inject_Z (k + 1))
    by (eapply Qle_lt_trans; eassumption).
  assert (Hb : inject_Z k < inject_Z (Qfloor x + 1))
    by (eapply Qle_lt_trans; eassumption).
  rewrite <- Zlt_Qlt in Ha, Hb. lia.
Qed.

Lemma shift_index_of (t : Q) (k : Z) :
  30 + 25 * inject_Z k <= t -> t < 30 + 25 * inject_Z (k + 1) ->
  Qfloor ((t - config.SHIFT_START_TIME) / config.SHIFT_DURATION) = k.
Proof.
  intros Hl Hu. unfold config.SHIFT_START_TIME, config.SHIFT_DURATION.
  apply Qfloor_unique.
  - apply Qle_shift_div_l; [reflexivity | lra].
  - apply Qlt_shift_div_r; [reflexivity | lra].
Qed.

(** The hub statuses [_update_hub_status] leaves, by the clock it reads. *)
Lemma _update_hub_status_schedule (e : Engine) :
  (time e <= 20 \/ 130 <= time e ->
   red_hub_status (_update_hub_status e) = config.HUB_ACTIVE
   /\ blue_hub_status (_update_hub_status e) = config.HUB_ACTIVE)
  /\ (20 < time e /\ time e < 30 ->
      red_hub_status (_update_hub_status e) = red_hub_status e
      /\ blue_hub_status (_update_hub_status e) = blue_hub_status e)
  /\ (forall k : Z,
         (0 <= k)%Z ->
         30 + 25 * inject_Z k <= time e ->
         time e < 30 + 25 * inject_Z (k + 1) ->
         time e < 130 ->
         red_hub_status (_update_hub_status e)
         = (if Z.even k then config.HUB_ACTIVE else config.HUB_INACTIVE)
         /\ blue_hub_status (_update_hub_status e)
            = (if Z.even k then config.HUB_INACTIVE else config.HUB_ACTIVE)).
Proof.
  split; [|split].
  - intros H. unfold _update_hub_status, config.AUTO_DURATION,
      config.MATCH_DURATION.
    destruct (Qle_bool (160 - time e) 30) eqn:H1; [now split|].
    destruct (Qle_bool (time e) 20) eqn:H2; [now split|].
    apply not_true_iff_false in H1, H2. rewrite Qle_bool_iff in H1, H2.
    exfalso. destruct H as [H|H]; [now apply H2 | apply H1; lra].
  - intros [Hl Hu]. unfold _update_hub_status, config.AUTO_DURATION,
      config.MATCH_DURATION, config.SHIFT_START_TIME.
    destruct (Qle_bool (160 - time e) 30) eqn:H1;
      [apply Qle_bool_iff in H1; lra|].
    destruct (Qle_bool (time e) 20) eqn:H2;
      [apply Qle_bool_iff in H2; lra|].
    assert (H3 : Qltb (time e - 30) 0 = true) by (apply Qltb_true; lra).
    rewrite H3. now split.
  - intros k Hpos Hl Hu Hend.
    assert (H0 : 0 <= inject_Z k)
      by (change 0 with (inject_Z 0); now rewrite <- Zle_Qle).
    rewrite (hubs_in_shift e (time e) k); try reflexivity; try assumption;
      unfold config.AUTO_DURATION, config.MATCH_DURATION; try lra;
      [|now apply shift_index_of].
    rewrite Zmod_even. now destruct (Z.even k).
Qed.

(** C8 as stated, refuted: [step] called with [dt = -1] on a freshly reset match
    returns normally, and has moved the clock back to -1. *)
Lemma step_nonpositive_dt_counterexample :
  -1 <= 0
  /\ ~ fails_loudly (step reset_engine (-1))
  /\ returned (step reset_engine (-1)) = true
  /\ time (state_of (step reset_engine (-1))) == -1
  /\ length (history (state_of (step reset_engine (-1)))) = 1%nat.
Proof.
  split; [vm_compute; discriminate|].
  split; [|split; [reflexivity|split; reflexivity]].
  intros (err & s & H). vm_compute in H. discriminate H.
Qed.

(** C8, amended. [step] does not check [dt]: called with [dt <= 0] it adds [dt]
    to the clock all the same (the clock stands still or runs backwards) and
    recomputes the hubs for that clock [t]: both ACTIVE when [t <= 20] or
    [t >= 130], left as they were when [20 < t < 30], Red's ACTIVE and Blue's
    INACTIVE in the even shifts and the reverse in the odd shifts of
    [30 <= t < 130].  When every robot is in one of the three zones it returns
    normally, having appended to the history exactly one snapshot, that of the
    engine it returns. *)
Theorem step_accepts_nonpositive_dt (e : Engine) (dt : Q) :
  dt <= 0 ->
  time (state_of (step e dt)) = time e + dt
  /\ (time e + dt <= 20 \/ 130 <= time e + dt ->
      red_hub_status (state_of (step e dt)) = config.HUB_ACTIVE
      /\ blue_hub_status (state_of (step e dt)) = config.HUB_ACTIVE)
  /\ (20 < time e + dt /\ time e + dt < 30 ->
      red_hub_status (state_of (step e dt)) = red_hub_status e
      /\ blue_hub_status (state_of (step e dt)) = blue_hub_status e)
  /\ (forall k : Z,
         (0 <= k)%Z ->
         30 + 25 * inject_Z k <= time e + dt ->
         time e + dt < 30 + 25 * inject_Z (k + 1) ->
         time e + dt < 130 ->
         red_hub_status (state_of (step e dt))
         = (if Z.even k then config.HUB_ACTIVE else config.HUB_INACTIVE)
         /\ blue_hub_status (state_of (step e dt))
            = (if Z.even k then config.HUB_INACTIVE else config.HUB_ACTIVE))
  /\ (Forall (fun b => known_zone (current_zone_name b) = true) (robots e) ->
      exists e',
        step e dt = Returns e'
        /\ time e' = time e + dt
        /\ history e' = history e ++ [snapshot e']
        /\ length (history e') = S (length (history e))).
Proof.
  intros Hdt.
  destruct (step_hubs e dt) as (Ht & Hred & Hblue).
  destruct (_update_hub_status_schedule (with_time e (time e + dt)))
    as (Hout & Hgap & Hshift).
  cbn [time with_time red_hub_status blue_hub_status] in Hout, Hgap, Hshift.
  split; [exact Ht|]. rewrite Hred, Hblue.
  split; [exact Hout|]. split; [exact Hgap|]. split; [exact Hshift|].
  intros Hall. pose proof (step_history_length e dt) as Hl.
  clear Hred Hblue Hout Hgap Hshift.
  unfold step in *.
  set (e2 := _update_hub_status (with_time e (time e + dt))) in *.
  assert (Hr : robots e2 = robots e /\ history e2 = history e).
  { now destruct (_update_hub_status_frame (with_time e (time e + dt)))
      as (_ & Hr & _ & Hh & _). }
  destruct Hr as [Hr Hh]. rewrite <- Hr in Hall.
  pose proof (step_robots_history dt (robots e2) e2) as Hh3.
  destruct (step_robots_nonpositive_dt dt (robots e2) e2 Hdt Hall)
    as [[e3 rs] Hs].
  rewrite Hs in *. simpl in Hh3. eexists. split; [reflexivity|].
  split; [exact Ht|]. split; [|apply Hl; reflexivity].
  cbn [history with_history with_robots]. now rewrite Hh3, Hh.
Qed.

Lemma step_accepts_nonpositive_dt_witness :
  time (state_of (step reset_engine (-1))) = time reset_engine + -1
  /\ red_hub_status (state_of (step reset_engine (-1))) = config.HUB_ACTIVE
  /\ blue_hub_status (state_of (step reset_engine (-1))) = config.HUB_ACTIVE
  /\ exists e',
       step reset_engine (-1) = Returns e'
       /\ time e' = time reset_engine + -1
       /\ history e' = history reset_engine ++ [snapshot e'].
Proof.
  destruct (step_accepts_nonpositive_dt reset_engine (-1))
    as (Ht & Hout & _ & _ & Hr).
  - vm_compute. discriminate.
  - split; [exact Ht|].
    destruct Hout as [Hred Hblue]; [left; vm_compute; discriminate|].
    split; [exact Hred|]. split; [exact Hblue|].
    destruct Hr as (e' & Hs & Ht' & Hh & _).
    + repeat (apply Forall_cons; [reflexivity|]). apply Forall_nil.
    + exists e'. split; [exact Hs|]. split; [exact Ht' | exact Hh].
Defined.

(** A [step] with a non-positive [dt] into the first shift: the hubs follow the
    clock it lands on. *)
Example step_backwards_into_first_shift :
  red_hub_status (state_of (step (with_time reset_engine 135) (-100)))
  = config.HUB_ACTIVE
  /\ blue_hub_status (state_of (step (with_time reset_engine 135) (-100)))
     = config.HUB_INACTIVE.
Proof. split; reflexivity. Qed.

(** * More of the code *)

(** ** The hub schedule over the whole match *)

(** X1. The hub statuses are a function of the clock alone once computed:
    recomputing them changes nothing. *)
Theorem _update_hub_status_idempotent (e : Engine) :
  _update_hub_status (_update_hub_status e) = _update_hub_status e.
Proof.
  unfold _update_hub_status.
  destruct (Qle_bool (config.MATCH_DURATION - time e) 30) eqn:H1;
    [cbn [time with_hubs]; now rewrite H1|].
  destruct (Qle_bool (time e) config.AUTO_DURATION) eqn:H2;
    [cbn [time with_hubs]; now rewrite H1, H2|].
  destruct (Qltb (time e - config.SHIFT_START_TIME) 0) eqn:H3;
    [now rewrite H1, H2, H3|].
  destruct (Qfloor ((time e - config.SHIFT_START_TIME) / config.SHIFT_DURATION)
              mod 2 =? 0)%Z eqn:H4;
    cbn [time with_hubs]; now rewrite H1, H2, H3, H4.
Qed.

(** X2. During autonomous (clock at most 20) and during the endgame (clock at
    least 130, with no upper limit) both hubs are made ACTIVE, whatever they
    were. *)
Theorem hubs_both_active_outside_teleop (e : Engine) :
  time e <= config.AUTO_DURATION \/ config.MATCH_DURATION - 30 <= time e ->
  _update_hub_status e = with_hubs e config.HUB_ACTIVE config.HUB_ACTIVE.
Proof.
  unfold config.AUTO_DURATION, config.MATCH_DURATION. intros H.
  unfold _update_hub_status, config.AUTO_DURATION, config.MATCH_DURATION.
  destruct (Qle_bool (160 - time e) 30) eqn:H1; [reflexivity|].
  destruct (Qle_bool (time e) 20) eqn:H2; [reflexivity|].
  apply not_true_iff_false in H1, H2. rewrite Qle_bool_iff in H1, H2.
  exfalso. destruct H as [H|H]; [now apply H2 | apply H1; lra].
Qed.

Lemma hubs_both_active_outside_teleop_witness :
  _update_hub_status (with_time reset_engine 15)
  = with_hubs (with_time reset_engine 15) config.HUB_ACTIVE config.HUB_ACTIVE
  /\ _update_hub_status (with_time reset_engine 200)
     = with_hubs (with_time reset_engine 200) config.HUB_ACTIVE config.HUB_ACTIVE.
Proof.
  split.
  - apply (hubs_both_active_outside_teleop (with_time reset_engine 15)).
    left. vm_compute. discriminate.
  - apply (hubs_both_active_outside_teleop (with_time reset_engine 200)).
    right. vm_compute. discriminate.
Defined.

(** X3. Between the end of autonomous and the first shift (clock strictly
    between 20 and 30) the hub statuses are left exactly as they were: the
    engine is returned unchanged. *)
Theorem hubs_carried_over_gap (e : Engine) :
  config.AUTO_DURATION < time e -> time e < config.SHIFT_START_TIME ->
  _update_hub_status e = e.
Proof.
  unfold config.AUTO_DURATION, config.SHIFT_START_TIME. intros Hl Hu.
  unfold _update_hub_status, config.AUTO_DURATION, config.MATCH_DURATION,
    config.SHIFT_START_TIME.
  destruct (Qle_bool (160 - time e) 30) eqn:H1;
    [apply Qle_bool_iff in H1; lra|].
  destruct (Qle_bool (time e) 20) eqn:H2;
    [apply Qle_bool_iff in H2; lra|].
  assert (H3 : Qltb (time e - 30) 0 = true) by (apply Qltb_true; lra).
  now rewrite H3.
Qed.

Lemma hubs_carried_over_gap_witness :
  _update_hub_status
    (with_hubs (with_time reset_engine 25) config.HUB_INACTIVE config.HUB_ACTIVE)
  = with_hubs (with_time reset_engine 25) config.HUB_INACTIVE config.HUB_ACTIVE.
Proof.
  apply (hubs_carried_over_gap
           (with_hubs (with_time reset_engine 25)
                      config.HUB_INACTIVE config.HUB_ACTIVE)).
  - reflexivity.
  - reflexivity.
Defined.

(** X4. In regulation teleop (clock from 30 up to, not including, 130) exactly
    one hub is ACTIVE: Red's on [30, 55) and [80, 105), Blue's on [55, 80) and
    [105, 130). *)
Theorem hub_shift_intervals (e : Engine) :
  ((30 <= time e /\ time e < 55) \/ (80 <= time e /\ time e < 105) ->
   _update_hub_status e = with_hubs e config.HUB_ACTIVE config.HUB_INACTIVE)
  /\ ((55 <= time e /\ time e < 80) \/ (105 <= time e /\ time e < 130) ->
      _update_hub_status e = with_hubs e config.HUB_INACTIVE config.HUB_ACTIVE).
Proof.
  assert (Hk : forall k : Z,
             (0 <= k)%Z ->
             30 + 25 * inject_Z k <= time e ->
             time e < 30 + 25 * inject_Z (k + 1) ->
             time e < 130 ->
             _update_hub_status e
             = if (k mod 2 =? 0)%Z
               then with_hubs e config.HUB_ACTIVE config.HUB_INACTIVE
               else with_hubs e config.HUB_INACTIVE config.HUB_ACTIVE).
  { intros k Hpos Hl Hu Hend.
    assert (H0 : 0 <= inject_Z k)
      by (change 0 with (inject_Z 0); now rewrite <- Zle_Qle).
    apply (hubs_in_shift e (time e) k); try reflexivity; try assumption;
      unfold config.AUTO_DURATION, config.MATCH_DURATION; try lra.
    now apply shift_index_of. }
  split; intros [[Hl Hu]|[Hl Hu]];
    [apply (Hk 0%Z)|apply (Hk 2%Z)|apply (Hk 1%Z)|apply (Hk 3%Z)];
    try lia;
    repeat match goal with
           | |- context [inject_Z ?z] =>
               let v := eval vm_compute in (inject_Z z) in
               change (inject_Z z) with v
           end; lra.
Qed.

Lemma hub_shift_intervals_witness :
  _update_hub_status (with_time reset_engine 90)
  = with_hubs (with_time reset_engine 90) config.HUB_ACTIVE config.HUB_INACTIVE
  /\ _update_hub_status (with_time reset_engine 129)
     = with_hubs (with_time reset_engine 129) config.HUB_INACTIVE config.HUB_ACTIVE.
Proof.
  split.
  - apply (proj1 (hub_shift_intervals (with_time reset_engine 90))).
    right. split; vm_compute; [discriminate | reflexivity].
  - apply (proj2 (hub_shift_intervals (with_time reset_engine 129))).
    right. split; vm_compute; [discriminate | reflexivity].
Defined.

(** ** Moves *)

Lemma split_moving (z : string) :
  split " to " ("Moving to " ++ z)%string = "Moving" :: split " to " z.
Proof. unfold split. simpl. now destruct z. Qed.

Lemma split_from_nonempty (sep s : string) (skip : nat) (cur : string) :
  exists h t, split_from sep skip cur s = h :: t.
Proof.
  revert skip cur. induction s as [|c s IH]; intros skip cur.
  - now eexists _, _.
  - destruct skip as [|k]; cbn [split_from]; [|apply IH].
    destruct (String.prefix sep (String c s)); [now eexists _, _ | apply IH].
Qed.

Lemma split_known_zone (z : string) :
  known_zone z = true -> split " to " z = [z].
Proof.
  unfold known_zone. intros H.
  apply orb_true_iff in H. destruct H as [H|H];
    [apply orb_true_iff in H; destruct H as [H|H]|];
    apply String.eqb_eq in H; subst z; reflexivity.
Qed.

(** The loop body on a robot that has just been sent to [z]. *)
Lemma step_robot_moving (dt : Q) (e : Engine) (bot : Robot) (z : string) :
  0 < transit_time bot ->
  (dt < transit_time bot ->
   step_robot dt e (set_action_transit bot z)
   = Returns (e, with_cooldown (set_action_transit bot z)
                               (transit_time bot - dt)))
  /\ (transit_time bot <= dt ->
      step_robot dt e (set_action_transit bot z)
      = Returns (e, with_action
                      (with_zone
                         (with_cooldown (set_action_transit bot z) 0)
                         (hd "" (split " to " z)))
                      "Idle")).
Proof.
  intros Hp. split; intros Hd.
  - unfold step_robot, update. cbn [set_action_transit current_action
      action_cooldown with_cooldown with_action String.eqb Ascii.eqb Bool.eqb
      String.append andb].
    assert (H1 : Qgtb (transit_time bot) 0 = true) by now apply Qgtb_true.
    assert (H2 : Qle_bool (transit_time bot - dt) 0 = false).
    { apply not_true_iff_false. rewrite Qle_bool_iff. lra. }
    rewrite H1. cbn [action_cooldown with_cooldown]. rewrite H2.
    cbn [andb action_cooldown with_cooldown]. now rewrite H2.
  - rewrite step_robot_falling_edge; try (simpl; first [reflexivity | lra]).
    rewrite update_falling_edge by (simpl; lra).
    unfold _on_action_complete.
    cbn [set_action_transit current_action with_action with_cooldown].
    change (String.prefix "Moving" ("Moving to " ++ z)%string) with true.
    cbv iota. rewrite split_moving.
    destruct (split_from_nonempty " to " z 0 "") as (h & t & Hs).
    unfold split at 1. rewrite Hs. unfold split. rewrite Hs. reflexivity.
Qed.

(** When the loop returns, a robot whose own processing does not depend on the
    engine ends as that processing leaves it. *)
Lemma step_robots_at (dt : Q) (todo : list Robot) (i : nat) (bot bot' : Robot)
    (e e' : Engine) (rs : list Robot) :
  nth_error todo i = Some bot ->
  (forall e0, step_robot dt e0 bot = Returns (e0, bot')) ->
  step_robots dt e todo = Returns (e', rs) ->
  nth_error rs i = Some bot'.
Proof.
  intros Hn Hb. revert i e e' rs Hn.
  induction todo as [|h rest IH]; intros [|j] e e' rs Hn; simpl in *;
    try discriminate.
  - injection Hn as ->. rewrite Hb.
    destruct (step_robots dt e rest) as [[e2 rest']|err [e2 rest']];
      [|discriminate].
    now intros [= _ <-].
  - destruct (step_robot dt e h) as [[e1 h1]|err [e1 h1]]; [|discriminate].
    destruct (step_robots dt e1 rest) as [[e2 rest']|err [e2 rest']] eqn:Hs;
      [|discriminate].
    intros [= _ <-]. simpl. exact (IH j e1 e2 rest' Hn Hs).
Qed.

Lemma step_at (e e' : Engine) (dt : Q) (i : nat) (bot bot' : Robot) :
  nth_error (robots e) i = Some bot ->
  (forall e0, step_robot dt e0 bot = Returns (e0, bot')) ->
  step e dt = Returns e' ->
  nth_error (robots e') i = Some bot'.
Proof.
  intros Hn Hb. unfold step.
  set (e2 := _update_hub_status (with_time e (time e + dt))).
  assert (Hr : robots e2 = robots e).
  { now destruct (_update_hub_status_frame (with_time e (time e + dt)))
      as (_ & Hr & _). }
  rewrite Hr.
  destruct (step_robots dt e2 (robots e)) as [[e3 rs]|err [e3 rs]] eqn:Hs;
    [|discriminate].
  intros [= <-]. simpl. exact (step_robots_at dt _ i bot bot' e2 e3 rs Hn Hb Hs).
Qed.

Lemma command_move_accepted (e : Engine) (robot_idx : Z) (i : nat) (bot : Robot)
    (z : string) :
  py_getitem (robots e) robot_idx = Some (i, bot) ->
  is_busy bot = false ->
  crossing (current_zone_name bot) z = false ->
  command_move e robot_idx z
  = Returns (with_robots e (set_nth (robots e) i (set_action_transit bot z))).
Proof.
  intros Hg Hb Hx. unfold command_move. rewrite Hg, Hb.
  unfold crossing in Hx. now rewrite Hx.
Qed.

(** X5. A [move] accepted by a robot with a positive transit time, followed by
    one [step] that returns: if [dt] is shorter than the transit time the robot
    is still where it was, busy, with the remaining time as cooldown; if [dt]
    reaches the transit time the robot is Idle with cooldown 0 in the zone named
    by the target up to its first [" to "], which is the target itself for Red,
    Blue and Neutral.  The inventory is untouched either way. *)
Theorem move_then_step (e e' : Engine) (robot_idx : Z) (i : nat) (bot : Robot)
    (z : string) (dt : Q) :
  py_getitem (robots e) robot_idx = Some (i, bot) ->
  is_busy bot = false ->
  crossing (current_zone_name bot) z = false ->
  0 < transit_time bot ->
  step (state_of (command_move e robot_idx z)) dt = Returns e' ->
  exists bot',
    nth_error (robots e') i = Some bot'
    /\ inventory bot' = inventory bot
    /\ (dt < transit_time bot ->
        current_zone_name bot' = current_zone_name bot
        /\ current_action bot' = ("Moving to " ++ z)%string
        /\ action_cooldown bot' = transit_time bot - dt)
    /\ (transit_time bot <= dt ->
        current_zone_name bot' = hd "" (split " to " z)
        /\ current_action bot' = "Idle"
        /\ action_cooldown bot' = 0
        /\ (known_zone z = true -> current_zone_name bot' = z)).
Proof.
  intros Hg Hb Hx Hp Hs.
  pose proof (py_getitem_nth _ _ _ _ Hg) as Hn.
  rewrite (command_move_accepted e robot_idx i bot z Hg Hb Hx) in Hs.
  simpl in Hs.
  assert (Hn1 : nth_error (robots (with_robots e (set_nth (robots e) i
                                     (set_action_transit bot z)))) i
                = Some (set_action_transit bot z)).
  { simpl. now apply nth_error_set_nth with (x := bot). }
  destruct (step_robot_moving dt e bot z Hp) as [_ _].
  destruct (Qlt_le_dec dt (transit_time bot)) as [Hlt|Hle].
  - eexists. split.
    + eapply step_at; [exact Hn1 | | exact Hs].
      intros e0. now apply (proj1 (step_robot_moving dt e0 bot z Hp)).
    + split; [reflexivity|]. split; [intros _; now repeat split|].
      intros Hle. exfalso. lra.
  - eexists. split.
    + eapply step_at; [exact Hn1 | | exact Hs].
      intros e0. now apply (proj2 (step_robot_moving dt e0 bot z Hp)).
    + split; [reflexivity|]. split; [intros Hlt; exfalso; lra|].
      intros _. repeat split. intros Hk. simpl.
      now rewrite (split_known_zone z Hk).
Qed.

Example move_to_a_name_with_separator :
  option_map current_zone_name
    (nth_error
       (robots (run reset_engine [CallMove 1 "Neutral to Blue"; CallStep 2])) 1)
  = Some "Neutral".
Proof. reflexivity. Qed.

Lemma move_then_step_witness :
  exists bot',
    nth_error (robots moved_engine) 0 = Some bot'
    /\ current_zone_name bot' = "Neutral"
    /\ current_action bot' = "Idle".
Proof.
  destruct (move_then_step reset_engine moved_engine
              0 0 (Robot_init "Red" 1 30 2 8 1 "Red" 8) "Neutral" 2)
    as (bot' & Hn & _ & _ & Hd).
  - reflexivity.
  - reflexivity.
  - reflexivity.
  - reflexivity.
  - vm_compute. reflexivity.
  - exists bot'. split; [exact Hn|].
    destruct Hd as (_ & Ha & _ & Hz); [vm_compute; discriminate|].
    split; [apply Hz; reflexivity | exact Ha].
Defined.

(** X6. A robot whose transit time is not positive cannot move: [move] is
    accepted and relabels the robot, but the robot is not busy and, whatever the
    [step] calls that follow, it stays in the zone it was in with the label
    ["Moving to ..."] and never arrives. *)
Theorem move_without_transit_time_never_arrives (e : Engine) (robot_idx : Z)
    (i : nat) (bot : Robot) (z : string) (dts : list Q) :
  py_getitem (robots e) robot_idx = Some (i, bot) ->
  is_busy bot = false ->
  crossing (current_zone_name bot) z = false ->
  transit_time bot <= 0 ->
  exists bot',
    nth_error (robots (run (state_of (command_move e robot_idx z))
                           (map CallStep dts))) i = Some bot'
    /\ current_zone_name bot' = current_zone_name bot
    /\ current_action bot' = ("Moving to " ++ z)%string
    /\ is_busy bot' = false.
Proof.
  intros Hg Hb Hx Ht.
  pose proof (py_getitem_nth _ _ _ _ Hg) as Hn.
  rewrite (command_move_accepted e robot_idx i bot z Hg Hb Hx). simpl.
  assert (Hs : is_busy (set_action_transit bot z) = false)
    by now apply is_busy_false.
  exists (set_action_transit bot z). split; [|now repeat split].
  apply steps_keep; [|exact Hs]. simpl.
  now apply nth_error_set_nth with (x := bot).
Qed.

Lemma move_without_transit_time_never_arrives_witness :
  exists bot',
    nth_error
      (robots (run (state_of (command_move
                      (add_robot SimulationEngine_init
                         (Robot_init "Red" 1 30 0 8 1 "Red" 0)) 0 "Neutral"))
                   (map CallStep [1; 2; 3]))) 0 = Some bot'
    /\ current_zone_name bot' = "Red"
    /\ current_action bot' = "Moving to Neutral"
    /\ is_busy bot' = false.
Proof.
  apply (move_without_transit_time_never_arrives
           (add_robot SimulationEngine_init
              (Robot_init "Red" 1 30 0 8 1 "Red" 0)) 0 0
           (Robot_init "Red" 1 30 0 8 1 "Red" 0) "Neutral" [1; 2; 3]).
  - reflexivity.
  - reflexivity.
  - reflexivity.
  - vm_compute. discriminate.
Defined.

(** ** The missing-zone error *)

Lemma zones_get_unknown (zs : ZoneDict) (key : string) :
  known_zone key = false -> zones_get zs key = None.
Proof.
  unfold known_zone, zones_get.
  destruct (key =? config.ZONE_RED); [discriminate|].
  destruct (key =? config.ZONE_BLUE); [discriminate|].
  now destruct (key =? config.ZONE_NEUTRAL).
Qed.

Lemma step_robot_unknown_zone (dt : Q) (e : Engine) (bot : Robot) :
  intaking_with_room bot = true ->
  known_zone (current_zone_name bot) = false ->
  step_robot dt e bot = Raises (KeyError (current_zone_name bot)) (e, bot).
Proof.
  unfold intaking_with_room. intros Hi Hk.
  apply andb_true_iff in Hi. destruct Hi as [Hi Hroom].
  apply negb_true_iff in Hroom.
  unfold step_robot, _process_intake.
  now rewrite Hi, Hroom, (zones_get_unknown _ _ Hk).
Qed.

Lemma step_robots_unknown_zone (dt : Q) (todo : list Robot) (e : Engine) :
  Exists (fun b => intaking_with_room b = true
                   /\ known_zone (current_zone_name b) = false) todo ->
  returned (step_robots dt e todo) = false.
Proof.
  intros Hex. revert e.
  induction Hex as [bot rest [Hi Hk]|bot rest _ IH]; intros e; simpl.
  - now rewrite (step_robot_unknown_zone dt e bot Hi Hk).
  - destruct (step_robot dt e bot) as [[e1 bot1]|err [e1 bot1]]; [|reflexivity].
    specialize (IH e1).
    now destruct (step_robots dt e1 rest) as [[e2 rest']|err [e2 rest']].
Qed.

(** X7. [step] raises as soon as some robot is in the middle of an intake
    (action Intaking, cooldown running, room left) in a zone that is not a key
    of the zone dictionary, a place [move] can send it to since it accepts any
    target name.  The call is left half-way: the clock has advanced by [dt] and
    no snapshot has been appended. *)
Theorem step_raises_in_unknown_zone (e : Engine) (dt : Q) :
  Exists (fun b => intaking_with_room b = true
                   /\ known_zone (current_zone_name b) = false) (robots e) ->
  fails_loudly (step e dt)
  /\ time (state_of (step e dt)) = time e + dt
  /\ history (state_of (step e dt)) = history e.
Proof.
  intros Hex. split; [|split; [apply step_hubs|]].
  - unfold step.
    set (e2 := _update_hub_status (with_time e (time e + dt))).
    assert (Hr : robots e2 = robots e).
    { now destruct (_update_hub_status_frame (with_time e (time e + dt)))
        as (_ & Hr & _). }
    rewrite <- Hr in Hex.
    pose proof (step_robots_unknown_zone dt (robots e2) e2 Hex) as H.
    destruct (step_robots dt e2 (robots e2)) as [[e3 rs]|err [e3 rs]];
      [discriminate|]. now eexists _, _.
  - unfold step.
    set (e2 := _update_hub_status (with_time e (time e + dt))).
    assert (Hr : robots e2 = robots e /\ history e2 = history e).
    { now destruct (_update_hub_status_frame (with_time e (time e + dt)))
        as (_ & Hr & _ & Hh & _). }
    destruct Hr as [Hr Hh]. rewrite <- Hr in Hex.
    pose proof (step_robots_unknown_zone dt (robots e2) e2 Hex) as H.
    pose proof (step_robots_history dt (robots e2) e2) as Hs.
    destruct (step_robots dt e2 (robots e2)) as [[e3 rs]|err [e3 rs]];
      [discriminate|]. simpl in *. congruence.
Qed.

Lemma step_raises_in_unknown_zone_witness :
  fails_loudly (step lost_engine 1)
  /\ time (state_of (step lost_engine 1)) = time lost_engine + 1
  /\ history (state_of (step lost_engine 1)) = history lost_engine.
Proof.
  apply (step_raises_in_unknown_zone lost_engine 1).
  apply Exists_cons_hd. split; vm_compute; reflexivity.
Defined.

(** ** Bounds and scores *)

Ltac split_ands := repeat match goal with |- _ /\ _ => split end.

Lemma min3_le (a b c : Q) :
  min3 a b c <= a /\ min3 a b c <= b /\ min3 a b c <= c.
Proof.
  unfold min3. repeat split.
  - eapply Qle_trans; [apply Q.le_min_l | apply Q.le_min_l].
  - eapply Qle_trans; [apply Q.le_min_l | apply Q.le_min_r].
  - apply Q.le_min_r.
Qed.

Lemma min3_nonneg (a b c : Q) :
  0 <= a -> 0 <= b -> 0 <= c -> 0 <= min3 a b c.
Proof. intros Ha Hb Hc. unfold min3. repeat apply Q.min_glb; assumption. Qed.

Lemma zones_get_nonneg (zs : ZoneDict) (key : string) (z : Zone) :
  zones_nonnegative zs -> zones_get zs key = Some z -> 0 <= balls z.
Proof.
  intros (Hr & Hb & Hn). unfold zones_get.
  destruct (key =? config.ZONE_RED); [now intros [= <-]|].
  destruct (key =? config.ZONE_BLUE); [now intros [= <-]|].
  destruct (key =? config.ZONE_NEUTRAL); [now intros [= <-]|discriminate].
Qed.

Lemma zones_set_balls_nonneg (zs : ZoneDict) (key : string) (v : Q) :
  zones_nonnegative zs -> 0 <= v -> zones_nonnegative (zones_set_balls zs key v).
Proof.
  intros (Hr & Hb & Hn) Hv. unfold zones_set_balls, zones_nonnegative.
  destruct (key =? config.ZONE_RED); [now repeat split|].
  destruct (key =? config.ZONE_BLUE); [now repeat split|].
  destruct (key =? config.ZONE_NEUTRAL); now repeat split.
Qed.

Lemma get_zone_density_nonneg (e : Engine) (key : string) :
  zones_nonnegative (zones e) -> 0 <= get_zone_density e key.
Proof.
  intros Hz. unfold get_zone_density.
  destruct (zones_get (zones e) key) as [z|] eqn:Hg; [|apply Qle_refl].
  pose proof (zones_get_nonneg _ _ _ Hz Hg) as Hb.
  unfold config.TOTAL_BALLS. apply Qle_shift_div_l; [reflexivity | lra].
Qed.

Lemma calculate_intake_rate_nonneg (e : Engine) (bot : Robot) :
  zones_nonnegative (zones e) -> 0 <= intake_efficiency bot ->
  0 <= calculate_intake_rate e bot.
Proof.
  intros Hz He. unfold calculate_intake_rate, config.MAX_INTAKE_RATE.
  pose proof (get_zone_density_nonneg e (current_zone_name bot) Hz) as Hd.
  repeat apply Qmult_le_0_compat; try assumption. discriminate.
Qed.

Lemma _process_intake_bounds (e : Engine) (bot : Robot) (dt : Q) :
  0 <= dt -> zones_nonnegative (zones e) -> robot_in_bounds bot ->
  zones_nonnegative (zones (fst (state_of (_process_intake e bot dt))))
  /\ robot_in_bounds (snd (state_of (_process_intake e bot dt)))
  /\ red_score (fst (state_of (_process_intake e bot dt))) = red_score e
  /\ blue_score (fst (state_of (_process_intake e bot dt))) = blue_score e.
Proof.
  intros Hdt Hz Hbot. pose proof Hbot as (Hi0 & Hic & He0 & He1).
  unfold _process_intake.
  destruct (Qle_bool (capacity bot - inventory bot) 0) eqn:Hs;
    [simpl; tauto|].
  apply not_true_iff_false in Hs. rewrite Qle_bool_iff in Hs.
  destruct (zones_get (zones e) (current_zone_name bot)) as [z|] eqn:Hg;
    [|simpl; tauto].
  pose proof (zones_get_nonneg _ _ _ Hz Hg) as Hb.
  pose proof (calculate_intake_rate_nonneg e bot Hz He0) as Hr.
  set (amount := calculate_intake_rate e bot * dt).
  assert (Ha : 0 <= amount) by (apply Qmult_le_0_compat; assumption).
  destruct (min3_le amount (capacity bot - inventory bot) (balls z))
    as (_ & Hm2 & Hm3).
  assert (Hm0 : 0 <= min3 amount (capacity bot - inventory bot) (balls z))
    by (apply min3_nonneg; [assumption | lra | assumption]).
  simpl. split; [|split; [|split; reflexivity]].
  - apply zones_set_balls_nonneg; [assumption | lra].
  - unfold robot_in_bounds. simpl. repeat split; try assumption; lra.
Qed.

Lemma update_bounds (b : Robot) (dt : Q) :
  robot_in_bounds b -> robot_in_bounds (update b dt).
Proof.
  unfold update. destruct (Qgtb (action_cooldown b) 0); [|trivial].
  cbn [action_cooldown with_cooldown].
  now destruct (Qle_bool (action_cooldown b - dt) 0).
Qed.

Lemma _on_action_complete_bounds (e : Engine) (bot : Robot) (action : string) :
  zones_nonnegative (zones e) -> robot_in_bounds bot ->
  zones_nonnegative (zones (fst (state_of (_on_action_complete e bot action))))
  /\ robot_in_bounds (snd (state_of (_on_action_complete e bot action)))
  /\ red_score e <= red_score (fst (state_of (_on_action_complete e bot action)))
  /\ blue_score e
     <= blue_score (fst (state_of (_on_action_complete e bot action))).
Proof.
  intros Hz Hb. pose proof Hz as (Hzr & Hzb & Hzn).
  pose proof Hb as (Hi0 & Hic & He0 & He1).
  assert (Hb0 : robot_in_bounds (with_action (with_inventory bot 0) "Idle")).
  { unfold robot_in_bounds. simpl. repeat split; try assumption; lra. }
  unfold _on_action_complete.
  destruct (String.prefix "Moving" action).
  { destruct (nth_error (split " to " action) 1); simpl;
      repeat split; try assumption; apply Qle_refl. }
  destruct (action =? "Shooting").
  { cbn [state_of fst snd]. split; [|split; [exact Hb0|]].
    - cbn [zones with_zones].
      apply zones_set_balls_nonneg.
      + now destruct (_ && _); [|destruct (_ && _)].
      + destruct (_ && _); [|destruct (_ && _)]; simpl; lra.
    - cbn [with_inventory team].
      destruct ((team bot =? "Red") && _); [simpl; split; lra|].
      destruct ((team bot =? "Blue") && _); simpl; split; lra. }
  destruct (action =? "Passing").
  { cbn [state_of fst snd]. split; [|split; [exact Hb0|]].
    - destruct (team (with_inventory bot 0) =? "Red"); cbn [zones with_zones];
        apply zones_set_balls_nonneg; try assumption; lra.
    - destruct (team (with_inventory bot 0) =? "Red"); simpl; split;
        apply Qle_refl. }
  simpl. repeat split; try assumption; apply Qle_refl.
Qed.

Lemma step_robot_bounds (dt : Q) (e : Engine) (bot : Robot) :
  0 <= dt -> zones_nonnegative (zones e) -> robot_in_bounds bot ->
  zones_nonnegative (zones (fst (state_of (step_robot dt e bot))))
  /\ robot_in_bounds (snd (state_of (step_robot dt e bot)))
  /\ red_score e <= red_score (fst (state_of (step_robot dt e bot)))
  /\ blue_score e <= blue_score (fst (state_of (step_robot dt e bot))).
Proof.
  intros Hdt Hz Hb. unfold step_robot.
  set (o := if (current_action bot =? "Intaking") && Qgtb (action_cooldown bot) 0
            then _process_intake e bot dt else Returns (e, bot)).
  assert (Ho : zones_nonnegative (zones (fst (state_of o)))
               /\ robot_in_bounds (snd (state_of o))
               /\ red_score (fst (state_of o)) = red_score e
               /\ blue_score (fst (state_of o)) = blue_score e).
  { subst o. destruct ((current_action bot =? "Intaking")
                       && Qgtb (action_cooldown bot) 0);
      [now apply _process_intake_bounds | simpl; tauto]. }
  destruct o as [[e1 bot1]|err [e1 bot1]]; simpl in Ho;
    destruct Ho as (Hz1 & Hb1 & Hr1 & Hs1).
  - pose proof (update_bounds bot1 dt Hb1) as Hu.
    destruct (Qgtb (action_cooldown bot) 0
              && Qle_bool (action_cooldown (update bot1 dt)) 0).
    + rewrite <- Hr1, <- Hs1. now apply _on_action_complete_bounds.
    + simpl. rewrite Hr1, Hs1. split_ands; try assumption; apply Qle_refl.
  - simpl. rewrite Hr1, Hs1. split_ands; try assumption; apply Qle_refl.
Qed.

Lemma step_robots_bounds (dt : Q) (todo : list Robot) (e : Engine) :
  0 <= dt -> zones_nonnegative (zones e) -> Forall robot_in_bounds todo ->
  zones_nonnegative (zones (fst (state_of (step_robots dt e todo))))
  /\ Forall robot_in_bounds (snd (state_of (step_robots dt e todo)))
  /\ red_score e <= red_score (fst (state_of (step_robots dt e todo)))
  /\ blue_score e <= blue_score (fst (state_of (step_robots dt e todo))).
Proof.
  intros Hdt Hz Hall. revert e Hz.
  induction Hall as [|bot rest Hb Hrest IH]; intros e Hz; simpl.
  - split_ands; try assumption; try constructor; apply Qle_refl.
  - destruct (step_robot_bounds dt e bot Hdt Hz Hb) as (Hz1 & Hb1 & Hr1 & Hs1).
    destruct (step_robot dt e bot) as [[e1 bot1]|err [e1 bot1]]; simpl in *.
    + destruct (IH e1 Hz1) as (Hz2 & Hb2 & Hr2 & Hs2).
      destruct (step_robots dt e1 rest) as [[e2 rest']|err [e2 rest']];
        simpl in *; (split; [assumption|]);
        (split; [now constructor|]); split; eapply Qle_trans; eassumption.
    + split_ands; try assumption. now constructor.
Qed.

Lemma Forall_set_nth {A : Type} (P : A -> Prop) (l : list A) (i : nat) (x : A) :
  Forall P l -> P x -> Forall P (set_nth l i x).
Proof.
  intros Hl Hx. revert i.
  induction Hl as [|h t Hh Ht IH]; intros [|j]; simpl; constructor; auto.
Qed.

(** What one call does to the bounds and to the scores. *)
Lemma call_bounds (e : Engine) (c : Call) :
  forward_call c -> in_bounds e ->
  in_bounds (state_of (call e c))
  /\ red_score e <= red_score (state_of (call e c))
  /\ blue_score e <= blue_score (state_of (call e c)).
Proof.
  intros Hf [Hz Hr].
  assert (Hsame : in_bounds e /\ red_score e <= red_score e
                  /\ blue_score e <= blue_score e)
    by (unfold in_bounds; split_ands; try assumption; apply Qle_refl).
  assert (Hset : forall i bot new,
             nth_error (robots e) i = Some bot ->
             robot_in_bounds bot -> robot_in_bounds new ->
             in_bounds (with_robots e (set_nth (robots e) i new))
             /\ red_score e <= red_score (with_robots e (set_nth (robots e) i new))
             /\ blue_score e
                <= blue_score (with_robots e (set_nth (robots e) i new))).
  { intros i bot new _ _ Hnew. split; [split; [exact Hz|]|split; apply Qle_refl].
    simpl. now apply Forall_set_nth. }
  assert (Hin : forall i bot, nth_error (robots e) i = Some bot ->
                              robot_in_bounds bot).
  { intros i bot Hn. rewrite Forall_forall in Hr. apply Hr.
    eapply nth_error_In; eassumption. }
  destruct c as [idx z|idx d|idx|idx|dt]; simpl.
  - unfold command_move.
    destruct (py_getitem (robots e) idx) as [[i bot]|] eqn:Hg; [|exact Hsame].
    apply py_getitem_nth in Hg. destruct (is_busy bot); [exact Hsame|].
    destruct (_ || _); [exact Hsame|].
    apply (Hset i bot); [assumption | exact (Hin i bot Hg) | exact (Hin i bot Hg)].
  - unfold command_intake.
    destruct (py_getitem (robots e) idx) as [[i bot]|] eqn:Hg; [|exact Hsame].
    apply py_getitem_nth in Hg. destruct (is_busy bot); [exact Hsame|].
    apply (Hset i bot); [assumption | exact (Hin i bot Hg) | exact (Hin i bot Hg)].
  - unfold command_shoot.
    destruct (py_getitem (robots e) idx) as [[i bot]|] eqn:Hg; [|exact Hsame].
    apply py_getitem_nth in Hg. destruct (is_busy bot); [exact Hsame|].
    destruct (negb _); [exact Hsame|].
    apply (Hset i bot); [assumption | exact (Hin i bot Hg) | exact (Hin i bot Hg)].
  - unfold command_pass.
    destruct (py_getitem (robots e) idx) as [[i bot]|] eqn:Hg; [|exact Hsame].
    apply py_getitem_nth in Hg. destruct (is_busy bot); [exact Hsame|].
    destruct (_ =? _); [exact Hsame|].
    apply (Hset i bot); [assumption | exact (Hin i bot Hg) | exact (Hin i bot Hg)].
  - simpl in Hf. unfold step.
    set (e2 := _update_hub_status (with_time e (time e + dt))).
    destruct (_update_hub_status_frame (with_time e (time e + dt)))
      as (Hz2 & Hr2 & _ & _ & Hrs & Hbs).
    fold e2 in Hz2, Hr2, Hrs, Hbs. simpl in Hz2, Hr2, Hrs, Hbs.
    assert (Hz' : zones_nonnegative (zones e2)) by now rewrite Hz2.
    assert (Hr' : Forall robot_in_bounds (robots e2)) by now rewrite Hr2.
    destruct (step_robots_bounds dt (robots e2) e2 Hf Hz' Hr')
      as (Hz3 & Hb3 & Hr3 & Hs3).
    rewrite Hrs in Hr3. rewrite Hbs in Hs3.
    destruct (step_robots dt e2 (robots e2)) as [[e3 rs]|err [e3 rs]];
      simpl in *; unfold in_bounds; split_ands; assumption.
Qed.

Lemma run_bounds (cs : list Call) (e : Engine) :
  Forall forward_call cs -> in_bounds e ->
  in_bounds (run e cs)
  /\ red_score e <= red_score (run e cs)
  /\ blue_score e <= blue_score (run e cs).
Proof.
  intros Hf. revert e.
  induction Hf as [|c rest Hc _ IH]; intros e Hb; simpl.
  - split_ands; try assumption; apply Qle_refl.
  - destruct (call_bounds e c Hc Hb) as (Hb1 & Hr1 & Hs1).
    destruct (IH _ Hb1) as (Hb2 & Hr2 & Hs2).
    split_ands; try assumption; eapply Qle_trans; eassumption.
Qed.

(** X8. Bounds are kept: if no zone holds a negative amount and every robot
    holds between 0 and its capacity (with an intake efficiency between 0 and
    1), the same is true after any sequence of commands and of [step] calls
    with [dt >= 0], including calls that raise. *)
Theorem bounds_preserved (e : Engine) (cs : list Call) :
  Forall forward_call cs -> in_bounds e -> in_bounds (run e cs).
Proof. intros Hf Hb. exact (proj1 (run_bounds cs e Hf Hb)). Qed.

Lemma reset_engine_in_bounds : in_bounds reset_engine.
Proof.
  split.
  - repeat split; vm_compute; discriminate.
  - repeat (constructor; [repeat split; vm_compute; discriminate|]).
    constructor.
Qed.

Lemma sample_calls_forward : Forall forward_call sample_calls.
Proof.
  repeat (constructor; [first [exact I | vm_compute; discriminate]|]).
  constructor.
Qed.

Lemma bounds_preserved_witness : in_bounds (run reset_engine sample_calls).
Proof.
  apply (bounds_preserved reset_engine sample_calls).
  - exact sample_calls_forward.
  - exact reset_engine_in_bounds.
Defined.

(** X9. The scores never go down: from an engine within bounds, after any
    sequence of commands and of [step] calls with [dt >= 0], each alliance's
    score is at least what it was. *)
Theorem scores_never_decrease (e : Engine) (cs : list Call) :
  Forall forward_call cs -> in_bounds e ->
  red_score e <= red_score (run e cs)
  /\ blue_score e <= blue_score (run e cs).
Proof. intros Hf Hb. exact (proj2 (run_bounds cs e Hf Hb)). Qed.

Lemma scores_never_decrease_witness :
  red_score reset_engine <= red_score (run reset_engine sample_calls)
  /\ blue_score reset_engine <= blue_score (run reset_engine sample_calls).
Proof.
  apply (scores_never_decrease reset_engine sample_calls).
  - exact sample_calls_forward.
  - exact reset_engine_in_bounds.
Defined.

Lemma sum_inventory_nonneg (rs : list Robot) :
  Forall robot_in_bounds rs -> 0 <= sum_inventory rs.
Proof.
  induction 1 as [|b rest (Hb & _) _ IH]; simpl; [apply Qle_refl | lra].
Qed.

Lemma zone_balls_le_total (e : Engine) (key : string) (z : Zone) :
  in_bounds e -> conserved e -> zones_get (zones e) key = Some z ->
  balls z <= config.TOTAL_BALLS.
Proof.
  intros [(Hr & Hb & Hn) Hall] Hc Hg.
  pose proof (sum_inventory_nonneg _ Hall) as Hs.
  unfold conserved, total_balls, sum_zones in Hc. unfold zones_get in Hg.
  destruct (key =? config.ZONE_RED); [injection Hg as <-; lra|].
  destruct (key =? config.ZONE_BLUE); [injection Hg as <-; lra|].
  destruct (key =? config.ZONE_NEUTRAL); [injection Hg as <-; lra|discriminate].
Qed.

(** X10. In an engine within bounds whose balls add up to [TOTAL_BALLS], the
    density of any zone name lies between 0 and 1 (0 for a name that is not a
    zone), and the intake rate of a robot with efficiency between 0 and 1 lies
    between 0 and [MAX_INTAKE_RATE]. *)
Theorem intake_rate_bounded (e : Engine) (bot : Robot) (key : string) :
  in_bounds e -> conserved e ->
  0 <= intake_efficiency bot -> intake_efficiency bot <= 1 ->
  0 <= get_zone_density e key /\ get_zone_density e key <= 1
  /\ (known_zone key = false -> get_zone_density e key = 0)
  /\ 0 <= calculate_intake_rate e bot
  /\ calculate_intake_rate e bot <= config.MAX_INTAKE_RATE.
Proof.
  intros Hb Hc He0 He1. pose proof Hb as [Hz _].
  assert (Hd1 : forall k, get_zone_density e k <= 1).
  { intros k. unfold get_zone_density.
    destruct (zones_get (zones e) k) as [z|] eqn:Hg; [|discriminate].
    pose proof (zone_balls_le_total e k z Hb Hc Hg) as Hle.
    unfold config.TOTAL_BALLS in *. apply Qle_shift_div_r; [reflexivity | lra]. }
  split; [now apply get_zone_density_nonneg|].
  split; [apply Hd1|].
  split.
  { intros Hk. unfold get_zone_density. now rewrite (zones_get_unknown _ _ Hk). }
  split; [now apply calculate_intake_rate_nonneg|].
  unfold calculate_intake_rate, config.MAX_INTAKE_RATE.
  pose proof (get_zone_density_nonneg e (current_zone_name bot) Hz) as Hd0.
  specialize (Hd1 (current_zone_name bot)).
  set (d := get_zone_density e (current_zone_name bot)) in *.
  nra.
Qed.

Lemma intake_rate_bounded_witness :
  0 <= calculate_intake_rate reset_engine (Robot_init "Red" 1 30 2 8 1 "Neutral" 8)
  /\ calculate_intake_rate reset_engine (Robot_init "Red" 1 30 2 8 1 "Neutral" 8)
     <= config.MAX_INTAKE_RATE.
Proof.
  destruct (intake_rate_bounded reset_engine
              (Robot_init "Red" 1 30 2 8 1 "Neutral" 8) "Neutral")
    as (_ & _ & _ & H0 & H1).
  - exact reset_engine_in_bounds.
  - reflexivity.
  - vm_compute. discriminate.
  - vm_compute. discriminate.
  - split; assumption.
Defined.

(** ** One tick of intake *)

Lemma zones_get_set_balls (zs : ZoneDict) (key : string) (z : Zone) (v : Q) :
  zones_get zs key = Some z ->
  zones_get (zones_set_balls zs key v) key = Some (mkZone (name z) v).
Proof.
  unfold zones_get, zones_set_balls.
  destruct (key =? config.ZONE_RED); [now intros [= <-]|].
  destruct (key =? config.ZONE_BLUE); [now intros [= <-]|].
  destruct (key =? config.ZONE_NEUTRAL); [now intros [= <-]|discriminate].
Qed.

(** X11. One tick of intake by a robot with room left, in a zone of the
    dictionary: the robot gains, and its zone loses, one and the same amount,
    which is at most the room left, at most what the zone holds and at most
    [rate * dt]; when [rate * dt] covers the smaller of the room left and the
    zone's content, the amount is exactly that smaller one (the robot fills up
    or the zone is emptied, no more). *)
Theorem intake_capped (e : Engine) (bot : Robot) (dt : Q) (z : Zone) :
  zones_get (zones e) (current_zone_name bot) = Some z ->
  0 < capacity bot - inventory bot ->
  exists e' bot' z' gain,
    _process_intake e bot dt = Returns (e', bot')
    /\ zones_get (zones e') (current_zone_name bot) = Some z'
    /\ inventory bot' == inventory bot + gain
    /\ balls z' == balls z - gain
    /\ gain <= capacity bot - inventory bot
    /\ gain <= balls z
    /\ gain <= calculate_intake_rate e bot * dt
    /\ (Qmin (capacity bot - inventory bot) (balls z)
        <= calculate_intake_rate e bot * dt ->
        gain == Qmin (capacity bot - inventory bot) (balls z)).
Proof.
  intros Hg Hroom. unfold _process_intake.
  assert (Hs : Qle_bool (capacity bot - inventory bot) 0 = false).
  { apply not_true_iff_false. rewrite Qle_bool_iff. lra. }
  rewrite Hs, Hg.
  set (amount := calculate_intake_rate e bot * dt).
  set (space := capacity bot - inventory bot) in *.
  destruct (min3_le amount space (balls z)) as (H1 & H2 & H3).
  eexists _, _, _, (min3 amount space (balls z)).
  split; [reflexivity|]. cbn [zones with_zones inventory with_inventory].
  split; [apply (zones_get_set_balls _ _ _ _ Hg)|].
  cbn [balls]. split; [reflexivity|]. split; [reflexivity|].
  split; [exact H2|]. split; [exact H3|]. split; [exact H1|].
  intros Hcover. apply Qle_antisym.
  - apply Q.min_glb; assumption.
  - unfold min3. apply Q.min_glb; [apply Q.min_glb|].
    + exact Hcover.
    + apply Q.le_min_l.
    + apply Q.le_min_r.
Qed.

Lemma intake_capped_witness :
  exists e' bot' z',
    _process_intake one_ball_engine nearly_full 100 = Returns (e', bot')
    /\ zones_get (zones e') "Red" = Some z'
    /\ inventory bot' == 8 + 1
    /\ balls z' == 0.
Proof.
  destruct (intake_capped one_ball_engine nearly_full 100 (mkZone "Red" 1))
    as (e' & bot' & z' & gain & Hr & Hz & Hi & Hb & _ & _ & _ & Hexact).
  - reflexivity.
  - reflexivity.
  - exists e', bot', z'. split; [exact Hr|]. split; [exact Hz|].
    assert (Hg : gain == 1).
    { rewrite Hexact; [reflexivity|]. vm_compute. discriminate. }
    split.
    + rewrite Hi, Hg. reflexivity.
    + rewrite Hb, Hg. reflexivity.
Defined.

(** ** Completion of a pass *)

(** X12. A robot whose [Passing] action completes in a tick ends the tick with
    inventory 0 and action Idle; all it held has gone to the Red zone when its
    team is ["Red"] and to the Blue zone for any other team name, whatever the
    hub statuses; the Neutral zone, the other alliance zone and both scores are
    unchanged. *)
Theorem passing_completion (dt : Q) (e : Engine) (bot : Robot) :
  current_action bot = "Passing" ->
  0 < action_cooldown bot ->
  action_cooldown bot - dt <= 0 ->
  exists e' bot',
    step_robot dt e bot = Returns (e', bot')
    /\ inventory bot' = 0
    /\ current_action bot' = "Idle"
    /\ action_cooldown bot' = 0
    /\ current_zone_name bot' = current_zone_name bot
    /\ balls (zone_neutral (zones e')) = balls (zone_neutral (zones e))
    /\ red_score e' = red_score e /\ blue_score e' = blue_score e
    /\ (team bot = "Red" ->
        balls (zone_red (zones e')) = balls (zone_red (zones e)) + inventory bot
        /\ balls (zone_blue (zones e')) = balls (zone_blue (zones e)))
    /\ (team bot <> "Red" ->
        balls (zone_blue (zones e')) = balls (zone_blue (zones e)) + inventory bot
        /\ balls (zone_red (zones e')) = balls (zone_red (zones e))).
Proof.
  intros Ha Hp Hz.
  rewrite step_robot_falling_edge by (try rewrite Ha; auto).
  rewrite (update_falling_edge _ _ Hp Hz), Ha.
  unfold _on_action_complete.
  cbn [String.prefix String.eqb Ascii.eqb Bool.eqb].
  cbn [team inventory with_action with_cooldown with_inventory].
  destruct (String.eqb_spec (team bot) "Red") as [Ht|Ht];
    eexists _, _; (split; [reflexivity|]); simpl;
    split_ands; try reflexivity; intros Hx; try contradiction;
    split; reflexivity.
Qed.

Lemma passing_completion_witness :
  exists e' bot',
    step_robot 1 reset_engine
               (mkRobot "Blue" 1 30 2 8 1 "Blue" "Neutral" 8 1 "Passing" 0)
    = Returns (e', bot')
    /\ inventory bot' = 0
    /\ balls (zone_blue (zones e')) == 8.
Proof.
  destruct (passing_completion 1 reset_engine
              (mkRobot "Blue" 1 30 2 8 1 "Blue" "Neutral" 8 1 "Passing" 0))
    as (e' & bot' & Hs & Hi & _ & _ & _ & _ & _ & _ & _ & Hb).
  - reflexivity.
  - reflexivity.
  - vm_compute. discriminate.
  - exists e', bot'. split; [exact Hs|]. split; [exact Hi|].
    destruct Hb as [Hb _]; [discriminate|]. rewrite Hb. reflexivity.
Defined.

(** ** The clock and the history *)

Lemma command_time (e : Engine) (c : Call) :
  (forall dt, c <> CallStep dt) ->
  time (state_of (call e c)) = time e
  /\ length (robots (state_of (call e c))) = length (robots e).
Proof.
  intros Hc.
  destruct c as [idx z|idx d|idx|idx|dt]; simpl;
    [unfold command_move|unfold command_intake|unfold command_shoot
    |unfold command_pass|now elim (Hc dt)];
    (destruct (py_getitem (robots e) idx) as [[i bot]|]; [|now split]);
    (destruct (is_busy bot); [now split|]).
  - destruct (_ || _); simpl; now rewrite ?set_nth_length.
  - simpl; now rewrite ?set_nth_length.
  - destruct (negb _); simpl; now rewrite ?set_nth_length.
  - destruct (_ =? _); simpl; now rewrite ?set_nth_length.
Qed.

(** X13. The clock after a sequence of calls is the clock before plus the sum
    of the [dt] of its [step] calls, in the order made: commands never move it,
    and a [step] that raises has moved it all the same. *)
Theorem clock_is_sum_of_steps (e : Engine) (cs : list Call) :
  time (run e cs) == time e + total_dt cs.
Proof.
  revert e. induction cs as [|c rest IH]; intros e; simpl; [lra|].
  rewrite IH.
  destruct c as [idx z|idx d|idx|idx|dt];
    [pose proof (proj1 (command_time e (CallMove idx z)
                          ltac:(intros; discriminate))) as H
    |pose proof (proj1 (command_time e (CallIntake idx d)
                          ltac:(intros; discriminate))) as H
    |pose proof (proj1 (command_time e (CallShoot idx)
                          ltac:(intros; discriminate))) as H
    |pose proof (proj1 (command_time e (CallPass idx)
                          ltac:(intros; discriminate))) as H
    |pose proof (proj1 (step_hubs e dt)) as H;
     change (step e dt) with (call e (CallStep dt)) in H];
    rewrite H; cbn [total_dt]; lra.
Qed.

Lemma step_robots_length (dt : Q) (todo : list Robot) (e : Engine) :
  length (snd (state_of (step_robots dt e todo))) = length todo.
Proof.
  revert e. induction todo as [|bot rest IH]; intros e; simpl; [reflexivity|].
  destruct (step_robot dt e bot) as [[e1 bot1]|err [e1 bot1]]; simpl;
    [|reflexivity].
  specialize (IH e1).
  destruct (step_robots dt e1 rest) as [[e2 rest']|err [e2 rest']];
    simpl in *; now rewrite IH.
Qed.

Lemma step_robots_count (e : Engine) (dt : Q) :
  length (robots (state_of (step e dt))) = length (robots e).
Proof.
  unfold step.
  set (e2 := _update_hub_status (with_time e (time e + dt))).
  assert (Hr : robots e2 = robots e).
  { now destruct (_update_hub_status_frame (with_time e (time e + dt)))
      as (_ & Hr & _). }
  pose proof (step_robots_length dt (robots e2) e2) as H.
  rewrite Hr in *.
  destruct (step_robots dt e2 (robots e)) as [[e3 rs]|err [e3 rs]];
    simpl in *; exact H.
Qed.

Lemma robot_states_from_length (t : Q) (rs : list Robot) (k : nat) :
  length (robot_states_from t k rs) = length rs.
Proof.
  revert k. induction rs as [|b rest IH]; intros k; simpl; [reflexivity|].
  now rewrite IH.
Qed.

Lemma robot_states_from_nth (t : Q) (rs : list Robot) (k i : nat) (bot : Robot) :
  nth_error rs i = Some bot ->
  nth_error (robot_states_from t k rs) i
  = Some (mkRobotState t (k + i) (team bot) (current_zone_name bot)
                       (current_action bot) (inventory bot)
                       (action_cooldown bot)).
Proof.
  revert k i. induction rs as [|b rest IH]; intros k [|j]; simpl;
    try discriminate.
  - intros [= ->]. now rewrite Nat.add_0_r.
  - intros H. rewrite (IH (S k) j H). now rewrite Nat.add_succ_r.
Qed.

(** X14. A [step] that returns appends exactly one snapshot, taken after the
    robots were processed: it carries the new clock, the zone counts, the hub
    statuses and the scores of the engine returned, and one robot state per
    robot, in list order and numbered from 0, each with that robot's team,
    zone, action, inventory and cooldown as the call leaves them.  The number of
    robots is unchanged. *)
Theorem step_appends_snapshot (e e' : Engine) (dt : Q) :
  step e dt = Returns e' ->
  length (robots e') = length (robots e)
  /\ exists s,
       history e' = history e ++ [s]
       /\ snap_time s = time e + dt
       /\ snap_time s = time e'
       /\ snap_red_balls s = balls (zone_red (zones e'))
       /\ snap_blue_balls s = balls (zone_blue (zones e'))
       /\ snap_neutral_balls s = balls (zone_neutral (zones e'))
       /\ snap_red_hub s = red_hub_status e'
       /\ snap_blue_hub s = blue_hub_status e'
       /\ snap_red_score s = red_score e'
       /\ snap_blue_score s = blue_score e'
       /\ length (snap_robot_states s) = length (robots e)
       /\ forall i bot,
            nth_error (robots e') i = Some bot ->
            nth_error (snap_robot_states s) i
            = Some (mkRobotState (time e') i (team bot) (current_zone_name bot)
                                 (current_action bot) (inventory bot)
                                 (action_cooldown bot)).
Proof.
  intros Hs.
  pose proof (step_robots_count e dt) as Hc.
  pose proof (proj1 (step_hubs e dt)) as Ht.
  rewrite Hs in Hc, Ht. simpl in Hc, Ht. split; [exact Hc|].
  unfold step in Hs.
  set (e2 := _update_hub_status (with_time e (time e + dt))) in *.
  assert (Hh : history e2 = history e).
  { now destruct (_update_hub_status_frame (with_time e (time e + dt)))
      as (_ & _ & _ & Hh & _). }
  pose proof (step_robots_history dt (robots e2) e2) as Hh3.
  destruct (step_robots dt e2 (robots e2)) as [[e3 rs]|err [e3 rs]];
    [|discriminate].
  injection Hs as <-. simpl in *.
  exists (snapshot (with_robots e3 rs)).
  split; [now rewrite Hh3, Hh|].
  split; [exact Ht|]. simpl.
  repeat (split; [reflexivity|]).
  split; [now rewrite robot_states_from_length|].
  intros i bot Hn. now rewrite (robot_states_from_nth _ _ 0 i bot Hn).
Qed.

Lemma step_appends_snapshot_witness :
  exists s,
    history (state_of (step reset_engine 1)) = history reset_engine ++ [s]
    /\ snap_time s = time reset_engine + 1
    /\ length (snap_robot_states s) = length (robots reset_engine).
Proof.
  destruct (step_appends_snapshot reset_engine (state_of (step reset_engine 1)) 1)
    as (_ & s & Hh & Ht & _ & _ & _ & _ & _ & _ & _ & _ & Hl & _).
  - reflexivity.
  - exists s. repeat split; assumption.
Defined.

(** ** Reading the flat robot history (visualize_match.py) *)

Lemma nth_error_concat_uniform {A : Type} (ll : list (list A)) (k f j : nat)
    (l : list A) (x : A) :
  Forall (fun l => length l = k) ll ->
  nth_error ll f = Some l -> nth_error l j = Some x ->
  nth_error (concat ll) (f * k + j) = Some x.
Proof.
  intros Hall. revert f.
  induction Hall as [|h t Hh _ IH]; intros [|f] Hf Hj; simpl in *;
    try discriminate.
  - injection Hf as ->. rewrite nth_error_app1; [exact Hj|].
    apply nth_error_Some. congruence.
  - rewrite nth_error_app2 by lia.
    replace (k + f * k + j - length h)%nat with (f * k + j)%nat by lia.
    now apply IH.
Qed.

Lemma py_getitem_nat {A : Type} (l : list A) (k : nat) (x : A) :
  nth_error l k = Some x -> py_getitem l (Z.of_nat k) = Some (k, x).
Proof.
  intros Hn. assert (Hlt : (k < length l)%nat) by (apply nth_error_Some; congruence).
  unfold py_getitem, py_index.
  assert (H1 : (0 <=? Z.of_nat k)%Z = true) by (apply Z.leb_le; lia).
  assert (H2 : (Z.of_nat k <? Z.of_nat (length l))%Z = true)
    by (apply Z.ltb_lt; lia).
  rewrite H1, H2. simpl. now rewrite Nat2Z.id, Hn.
Qed.

Lemma step_frame_shape (e : Engine) (dt : Q) :
  exists new,
    history (state_of (step e dt)) = history e ++ new
    /\ Forall (fun s => length (snap_robot_states s) = length (robots e)) new.
Proof.
  pose proof (step_robots_count e dt) as Hc. unfold step in *.
  set (e2 := _update_hub_status (with_time e (time e + dt))) in *.
  assert (Hh : history e2 = history e).
  { now destruct (_update_hub_status_frame (with_time e (time e + dt)))
      as (_ & _ & _ & Hh & _). }
  pose proof (step_robots_history dt (robots e2) e2) as Hs.
  destruct (step_robots dt e2 (robots e2)) as [[e3 rs]|err [e3 rs]];
    simpl in *.
  - exists [snapshot (with_robots e3 rs)]. split; [congruence|].
    constructor; [|constructor]. simpl.
    now rewrite robot_states_from_length.
  - exists []. split; [rewrite app_nil_r; congruence | constructor].
Qed.

Lemma call_frame_shape (e : Engine) (c : Call) (n : nat) :
  length (robots e) = n ->
  Forall (fun s => length (snap_robot_states s) = n) (history e) ->
  length (robots (state_of (call e c))) = n
  /\ Forall (fun s => length (snap_robot_states s) = n)
            (history (state_of (call e c))).
Proof.
  intros Hn Hall.
  assert (Hd : (exists dt, c = CallStep dt) \/ forall dt, c <> CallStep dt).
  { destruct c; try (right; discriminate). left. now eexists. }
  destruct Hd as [[dt ->]|Hc].
  - change (call e (CallStep dt)) with (step e dt). split.
    + now rewrite step_robots_count.
    + destruct (step_frame_shape e dt) as (new & -> & Hnew).
      apply Forall_app. split; [exact Hall|]. now rewrite Hn in Hnew.
  - split.
    + now rewrite (proj2 (command_time e c Hc)).
    + now rewrite (proj2 (command_frame e c Hc)).
Qed.

Lemma run_frame_shape (cs : list Call) (e : Engine) (n : nat) :
  length (robots e) = n ->
  Forall (fun s => length (snap_robot_states s) = n) (history e) ->
  length (robots (run e cs)) = n
  /\ Forall (fun s => length (snap_robot_states s) = n) (history (run e cs)).
Proof.
  revert e. induction cs as [|c rest IH]; intros e Hn Hall; simpl;
    [now split|].
  destruct (call_frame_shape e c n Hn Hall) as [Hn1 Hall1]. now apply IH.
Qed.

(** X15. In a match of exactly six robots started with an empty history,
    [get_robot_state(step_idx, bot_idx)] is the state recorded for the robot at
    position [bot_idx] by the [step_idx]-th returning [step], for every frame
    and robot recorded; on an empty history it fails with an [IndexError]. *)
Theorem get_robot_state_frame (e0 : Engine) (cs : list Call) (f j : nat)
    (s : Snapshot) (rs : RobotState) :
  history e0 = [] -> length (robots e0) = 6%nat ->
  nth_error (history (run e0 cs)) f = Some s ->
  nth_error (snap_robot_states s) j = Some rs ->
  get_robot_state (run e0 cs) (Z.of_nat f) (Z.of_nat j) = Some rs
  /\ get_robot_state e0 (Z.of_nat f) (Z.of_nat j) = None.
Proof.
  intros Hempty Hsix Hf Hj.
  assert (Hall0 : Forall (fun s => length (snap_robot_states s) = 6%nat)
                         (history e0)) by (rewrite Hempty; constructor).
  destruct (run_frame_shape cs e0 6 Hsix Hall0) as [_ Hall].
  assert (Hflat : nth_error (history_robot_states (run e0 cs)) (f * 6 + j)
                  = Some rs).
  { unfold history_robot_states.
    apply nth_error_concat_uniform with (l := snap_robot_states s).
    - rewrite Forall_map. exact Hall.
    - now rewrite nth_error_map, Hf.
    - exact Hj. }
  split.
  - unfold get_robot_state.
    replace (Z.of_nat f * 6 + Z.of_nat j)%Z with (Z.of_nat (f * 6 + j)) by lia.
    assert (Hlt : (f * 6 + j < length (history_robot_states (run e0 cs)))%nat)
      by (apply nth_error_Some; congruence).
    assert (Hb : (Z.of_nat (length (history_robot_states (run e0 cs)))
                  <=? Z.of_nat (f * 6 + j))%Z = false)
      by (apply Z.leb_gt; lia).
    rewrite Hb. now rewrite (py_getitem_nat _ _ _ Hflat).
  - unfold get_robot_state, history_robot_states. rewrite Hempty. simpl.
    assert (H0 : (0 <=? Z.of_nat f * 6 + Z.of_nat j)%Z = true)
      by (apply Z.leb_le; lia).
    now rewrite H0.
Qed.

Lemma get_robot_state_frame_witness :
  match nth_error (history (run reset_engine sample_calls)) 1 with
  | Some s =>
      match nth_error (snap_robot_states s) 3 with
      | Some rs =>
          get_robot_state (run reset_engine sample_calls) 1 3 = Some rs
      | None => False
      end
  | None => False
  end.
Proof.
  destruct (nth_error (history (run reset_engine sample_calls)) 1)
    as [s|] eqn:Hs; [|vm_compute in Hs; discriminate Hs].
  destruct (nth_error (snap_robot_states s) 3) as [rs|] eqn:Hr.
  - exact (proj1 (get_robot_state_frame reset_engine sample_calls 1 3 s rs
                    eq_refl eq_refl Hs Hr)).
  - vm_compute in Hs. injection Hs as <-. vm_compute in Hr. discriminate Hr.
Defined.

(** ** entities.py: construction of a robot, zone bookkeeping *)

(** X16. A robot is created with its intake efficiency clamped to [0, 1]
    (kept when already there, 0 when negative, 1 when above 1), idle and not
    busy, standing in its start zone with the given inventory. *)
Theorem Robot_init_clamps (team : string) (id : Z)
    (capacity transit_time balls_shot_per_sec efficiency : Q)
    (start_zone : string) (initial_inventory : Q) :
  let b := Robot_init team id capacity transit_time balls_shot_per_sec
                      efficiency start_zone initial_inventory in
  0 <= intake_efficiency b /\ intake_efficiency b <= 1
  /\ (0 <= efficiency -> efficiency <= 1 -> intake_efficiency b == efficiency)
  /\ (efficiency <= 0 -> intake_efficiency b == 0)
  /\ (1 <= efficiency -> intake_efficiency b == 1)
  /\ is_busy b = false
  /\ current_action b = "Idle"
  /\ current_zone_name b = start_zone
  /\ inventory b = initial_inventory.
Proof.
  simpl.
  assert (Hm1 : Qmin 1 efficiency <= 1) by apply Q.le_min_l.
  split; [apply Q.le_max_l|].
  split; [apply Q.max_lub; [discriminate | exact Hm1]|].
  split.
  { intros H0 H1. rewrite Q.max_r; [now apply Q.min_r|].
    rewrite Q.min_r; assumption. }
  split.
  { intros H0. rewrite Q.max_l; [reflexivity|].
    eapply Qle_trans; [apply Q.le_min_r | exact H0]. }
  split.
  { intros H1. rewrite Q.min_l by exact H1. now rewrite Q.max_r. }
  repeat split.
Qed.

(** X17. [remove_balls] takes [min(balls, count)] out of the zone and returns
    it: what is removed plus what is left is what was there; it is never more
    than asked for nor than the zone held, so a zone with a non-negative count
    asked for a non-negative amount stays non-negative; and it is exactly the
    amount asked for when the zone holds that much.  Removing what [add_balls]
    has just added to a non-negative zone gives the zone back. *)
Theorem remove_balls_spec (z : Zone) (count : Q) :
  name (fst (remove_balls z count)) = name z
  /\ balls (fst (remove_balls z count)) + snd (remove_balls z count) == balls z
  /\ snd (remove_balls z count) <= count
  /\ snd (remove_balls z count) <= balls z
  /\ (0 <= balls z -> 0 <= count ->
      0 <= snd (remove_balls z count)
      /\ 0 <= balls (fst (remove_balls z count)))
  /\ (count <= balls z -> snd (remove_balls z count) == count)
  /\ (0 <= balls z ->
      snd (remove_balls (add_balls z count) count) == count
      /\ balls (fst (remove_balls (add_balls z count) count)) == balls z).
Proof.
  unfold remove_balls, add_balls. simpl.
  pose proof (Q.le_min_l (balls z) count) as Hl.
  pose proof (Q.le_min_r (balls z) count) as Hr.
  split; [reflexivity|]. split; [lra|]. split; [exact Hr|]. split; [exact Hl|].
  split.
  { intros Hb Hc.
    assert (H0 : 0 <= Qmin (balls z) count) by (apply Q.min_glb; assumption).
    split; [exact H0 | lra]. }
  split; [intros Hle; now apply Q.min_r|].
  intros Hb.
  assert (Hm : Qmin (balls z + count) count == count) by (apply Q.min_r; lra).
  split; [exact Hm | rewrite Hm; lra].
Qed.

(** ** gym_env.py: relative actions *)

(** X18. [_apply_relative_action] hands actions 0..5 to the engine's commands
    and ignores any other action value without consulting the engine.  With
    the alliance and opponent zones it derives from [team], "move opponent"
    (1) for a robot standing in the alliance zone and "move alliance" (0) for a
    robot standing in the opponent zone leave the engine unchanged: a robot
    changes side only by way of Neutral. *)
Theorem relative_action_rules (e : Engine) (bot_idx action : Z) (team : string) :
  let alliance_zone := if team =? "Red" then config.ZONE_RED
                       else config.ZONE_BLUE in
  let opponent_zone := if team =? "Red" then config.ZONE_BLUE
                       else config.ZONE_RED in
  ((action < 0 \/ 5 < action)%Z ->
   _apply_relative_action e bot_idx action team = Returns e)
  /\ (forall i bot,
         py_getitem (robots e) bot_idx = Some (i, bot) ->
         (current_zone_name bot = alliance_zone ->
          _apply_relative_action e bot_idx 1 team = Returns e)
         /\ (current_zone_name bot = opponent_zone ->
             _apply_relative_action e bot_idx 0 team = Returns e)
         /\ (is_busy bot = false -> current_zone_name bot = config.ZONE_NEUTRAL ->
             _apply_relative_action e bot_idx 0 team
             = Returns (with_robots e (set_nth (robots e) i
                          (set_action_transit bot alliance_zone)))
             /\ _apply_relative_action e bot_idx 1 team
                = Returns (with_robots e (set_nth (robots e) i
                             (set_action_transit bot opponent_zone))))).
Proof.
  intros alliance_zone opponent_zone. split.
  - intros Hout. unfold _apply_relative_action.
    repeat match goal with
           | |- context [(action =? ?k)%Z] =>
               let H := fresh in
               destruct (Z.eqb_spec action k) as [H|H]; [exfalso; lia|]
           end.
    reflexivity.
  - intros i bot Hg. unfold _apply_relative_action. simpl.
    fold alliance_zone opponent_zone. unfold command_move. rewrite Hg.
    split; [|split].
    + intros Hz. destruct (is_busy bot); [reflexivity|]. rewrite Hz.
      subst alliance_zone opponent_zone. now destruct (team =? "Red").
    + intros Hz. destruct (is_busy bot); [reflexivity|]. rewrite Hz.
      subst alliance_zone opponent_zone. now destruct (team =? "Red").
    + intros Hb Hz. rewrite Hb, Hz. split; reflexivity.
Qed.

Lemma Robot_init_clamps_witness :
  intake_efficiency (Robot_init "Red" 1 30 2 8 (3 # 2) "Red" 8) == 1
  /\ intake_efficiency (Robot_init "Red" 1 30 2 8 (-1) "Red" 8) == 0
  /\ intake_efficiency (Robot_init "Red" 1 30 2 8 (1 # 2) "Red" 8) == 1 # 2.
Proof.
  split; [|split].
  - destruct (Robot_init_clamps "Red" 1 30 2 8 (3 # 2) "Red" 8)
      as (_ & _ & _ & _ & H & _).
    apply H. vm_compute. discriminate.
  - destruct (Robot_init_clamps "Red" 1 30 2 8 (-1) "Red" 8)
      as (_ & _ & _ & H & _).
    apply H. vm_compute. discriminate.
  - destruct (Robot_init_clamps "Red" 1 30 2 8 (1 # 2) "Red" 8)
      as (_ & _ & H & _).
    apply H; vm_compute; discriminate.
Defined.

Lemma remove_balls_spec_witness :
  snd (remove_balls (mkZone "Red" 3) 5) <= 3
  /\ snd (remove_balls (mkZone "Red" 3) 2) == 2
  /\ balls (fst (remove_balls (add_balls (mkZone "Red" 3) 5) 5)) == 3.
Proof.
  split; [|split].
  - exact (proj1 (proj2 (proj2 (proj2 (remove_balls_spec (mkZone "Red" 3) 5))))).
  - destruct (remove_balls_spec (mkZone "Red" 3) 2) as (_ & _ & _ & _ & _ & H & _).
    apply H. vm_compute. discriminate.
  - destruct (remove_balls_spec (mkZone "Red" 3) 5) as (_ & _ & _ & _ & _ & _ & H).
    apply H. vm_compute. discriminate.
Defined.

Lemma relative_action_rules_witness :
  _apply_relative_action reset_engine 0 7 "Red" = Returns reset_engine
  /\ _apply_relative_action reset_engine 0 1 "Red" = Returns reset_engine
  /\ _apply_relative_action reset_engine 4 1 "Blue" = Returns reset_engine.
Proof.
  split; [|split].
  - apply (proj1 (relative_action_rules reset_engine 0 7 "Red")). right. lia.
  - destruct (proj2 (relative_action_rules reset_engine 0 1 "Red") 0%nat
                (Robot_init "Red" 1 30 2 8 1 "Red" 8) eq_refl) as (H & _).
    apply H. reflexivity.
  - destruct (proj2 (relative_action_rules reset_engine 4 1 "Blue") 4%nat
                (Robot_init "Blue" 2 40 2 6 1 "Blue" 8) eq_refl) as (H & _).
    apply H. reflexivity.
Defined.

(** ** gym_env.py: the observation *)

Lemma firstn_split {A : Type} (n m : nat) (l : list A) :
  firstn (n + m) l = firstn n l ++ firstn m (skipn n l).
Proof.
  revert l. induction n as [|n IH]; intros l; [reflexivity|].
  destruct l as [|a l]; simpl; [now rewrite firstn_nil | now rewrite IH].
Qed.

Lemma Forall_firstn_of {A : Type} (P : A -> Prop) (n : nat) (l : list A) :
  Forall P l -> Forall P (firstn n l).
Proof.
  intros H. rewrite <- (firstn_skipn n l) in H. now apply Forall_app in H.
Qed.

Lemma Forall_skipn_of {A : Type} (P : A -> Prop) (n : nat) (l : list A) :
  Forall P l -> Forall P (skipn n l).
Proof.
  intros H. rewrite <- (firstn_skipn n l) in H. now apply Forall_app in H.
Qed.

Lemma loc_one_hot_length (bot : Robot) (my_zone op_zone : string) :
  length (loc_one_hot bot my_zone op_zone) = 3%nat.
Proof.
  unfold loc_one_hot.
  repeat match goal with |- context [if ?c then _ else _] => destruct c end;
    reflexivity.
Qed.

Lemma act_one_hot_length (a : string) : length (act_one_hot a) = 5%nat.
Proof.
  unfold act_one_hot.
  repeat match goal with |- context [if ?c then _ else _] => destruct c end;
    reflexivity.
Qed.

Lemma bots_obs_length (bots : list Robot) (my_zone op_zone : string)
    (obs : list Q) :
  bots_obs bots my_zone op_zone = Some obs ->
  length obs = (9 * length bots)%nat.
Proof.
  revert obs. induction bots as [|b rest IH]; intros obs; simpl.
  - now intros [= <-].
  - unfold bot_obs. destruct (Qeq_bool (capacity b) 0); [discriminate|].
    destruct (bots_obs rest my_zone op_zone) as [os|]; [|discriminate].
    intros [= <-]. specialize (IH os eq_refl).
    rewrite !length_app. cbn [length app].
    rewrite loc_one_hot_length, act_one_hot_length, IH. lia.
Qed.

Lemma bots_obs_none (bots : list Robot) (my_zone op_zone : string) :
  bots_obs bots my_zone op_zone = None
  <-> Exists (fun b => capacity b == 0) bots.
Proof.
  induction bots as [|b rest IH]; simpl.
  - split; [discriminate | intros H; inversion H].
  - unfold bot_obs. destruct (Qeq_bool (capacity b) 0) eqn:Hc.
    + split; [|reflexivity]. intros _. apply Exists_cons_hd.
      now apply Qeq_bool_iff.
    + assert (Hne : ~ capacity b == 0).
      { intros H. apply Qeq_bool_iff in H. congruence. }
      destruct (bots_obs rest my_zone op_zone) as [os|].
      * split; [discriminate|]. intros H. exfalso.
        inversion H; subst; [contradiction|].
        assert (Hx : Some os = None) by now apply IH. discriminate Hx.
      * split; [|reflexivity]. intros _. apply Exists_cons_tl. now apply IH.
Qed.

(** The robots an observation describes, in its order. *)
Lemma observed_bots_length (l : list Robot) :
  length (firstn 3 l ++ firstn 3 (skipn 3 l)) = Nat.min 6 (length l)
  /\ length (firstn 3 (skipn 3 l) ++ firstn 3 l) = Nat.min 6 (length l).
Proof.
  rewrite !length_app, !length_firstn, !length_skipn. lia.
Qed.

(** X19. When [_get_obs] returns, the observation has nine entries for each of
    the first six robots of the engine, however many of them there are, and six
    global entries: [9 * min(6, robots) + 6] in all, that is the 60 of the
    declared observation space exactly when the engine has at least six
    robots. *)
Theorem _get_obs_length (e : Engine) (team : string) (obs : list Q) :
  _get_obs e team = Some obs ->
  length obs = (9 * Nat.min 6 (length (robots e)) + 6)%nat
  /\ (length obs = 60%nat <-> (6 <= length (robots e))%nat).
Proof.
  intros H.
  assert (Hl : length obs = (9 * Nat.min 6 (length (robots e)) + 6)%nat).
  { unfold _get_obs in H.
    destruct (observed_bots_length (robots e)) as [Hr Hb].
    destruct (team =? "Red");
      match type of H with
      | match bots_obs ?bs ?m ?o with _ => _ end = _ =>
          destruct (bots_obs bs m o) as [l|] eqn:Hbs; [|discriminate];
          apply bots_obs_length in Hbs
      end;
      rewrite ?Hr, ?Hb in Hbs;
      injection H as <-; rewrite length_app, Hbs; cbn [length]; lia. }
  split; [exact Hl | lia].
Qed.

Lemma _get_obs_length_witness :
  exists obs, _get_obs reset_engine "Blue" = Some obs /\ length obs = 60%nat.
Proof.
  destruct (_get_obs reset_engine "Blue") as [obs|] eqn:H;
    [|vm_compute in H; discriminate H].
  exists obs. split; [reflexivity|].
  destruct (_get_obs_length reset_engine "Blue" obs H) as [_ Hiff].
  apply Hiff. vm_compute. lia.
Defined.

(** X20. [_get_obs] fails, with the [ZeroDivisionError] of
    [inventory / capacity], exactly when one of the first six robots of the
    engine has capacity 0; robots beyond the sixth are never looked at. *)
Theorem _get_obs_fails_on_zero_capacity (e : Engine) (team : string) :
  _get_obs e team = None
  <-> Exists (fun b => capacity b == 0) (firstn 6 (robots e)).
Proof.
  change 6%nat with (3 + 3)%nat. rewrite firstn_split, Exists_app.
  unfold _get_obs. destruct (team =? "Red");
    match goal with
    | |- match bots_obs ?bs ?m ?o with _ => _ end = _ <-> _ =>
        pose proof (bots_obs_none bs m o) as Hn;
        destruct (bots_obs bs m o) as [l|]
    end; rewrite Exists_app in Hn.
  - split; [discriminate|]. intros H. apply Hn in H. discriminate.
  - split; [|reflexivity]. intros _. now apply Hn.
  - split; [discriminate|]. intros H. apply or_comm, Hn in H. discriminate.
  - split; [|reflexivity]. intros _. apply or_comm. now apply Hn.
Qed.

Lemma get_zone_density_le_1 (e : Engine) (key : string) :
  in_bounds e -> conserved e -> get_zone_density e key <= 1.
Proof.
  intros Hb Hc. unfold get_zone_density.
  destruct (zones_get (zones e) key) as [z|] eqn:Hg; [|discriminate].
  pose proof (zone_balls_le_total e key z Hb Hc Hg) as Hle.
  unfold config.TOTAL_BALLS in *. apply Qle_shift_div_r; [reflexivity | lra].
Qed.

Ltac unit_entries :=
  repeat (apply Forall_cons; [split; discriminate|]); apply Forall_nil.

Lemma loc_one_hot_unit (bot : Robot) (my_zone op_zone : string) :
  Forall (fun x => 0 <= x /\ x <= 1) (loc_one_hot bot my_zone op_zone).
Proof.
  unfold loc_one_hot.
  destruct (current_zone_name bot =? my_zone); [unit_entries|].
  destruct (current_zone_name bot =? op_zone); [unit_entries|].
  destruct (current_zone_name bot =? config.ZONE_NEUTRAL); unit_entries.
Qed.

Lemma act_one_hot_unit (a : string) :
  Forall (fun x => 0 <= x /\ x <= 1) (act_one_hot a).
Proof.
  unfold act_one_hot.
  destruct (a =? "Idle"); [unit_entries|].
  destruct (String.prefix "Moving" a); [unit_entries|].
  destruct (a =? "Intaking"); [unit_entries|].
  destruct (a =? "Shooting"); [unit_entries|].
  destruct (a =? "Passing"); unit_entries.
Qed.

Lemma bots_obs_unit (bots : list Robot) (my_zone op_zone : string)
    (obs : list Q) :
  Forall robot_in_bounds bots ->
  bots_obs bots my_zone op_zone = Some obs ->
  Forall (fun x => 0 <= x /\ x <= 1) obs.
Proof.
  intros Hall. revert obs.
  induction Hall as [|b rest Hb _ IH]; intros obs; simpl.
  - intros [= <-]. apply Forall_nil.
  - unfold bot_obs. destruct (Qeq_bool (capacity b) 0) eqn:Hc; [discriminate|].
    destruct (bots_obs rest my_zone op_zone) as [os|]; [|discriminate].
    intros [= <-]. destruct Hb as (Hi0 & Hic & _).
    assert (Hne : ~ capacity b == 0).
    { intros H. apply Qeq_bool_iff in H. congruence. }
    assert (Hpos : 0 < capacity b).
    { destruct (Qlt_le_dec 0 (capacity b)) as [H|H]; [exact H|].
      exfalso. apply Hne. apply Qle_antisym; [exact H | lra]. }
    apply Forall_app. split; [|now apply IH].
    apply Forall_app. split; [apply loc_one_hot_unit|].
    apply Forall_cons; [|apply act_one_hot_unit]. split.
    + apply Qle_shift_div_l; [exact Hpos | lra].
    + apply Qle_shift_div_r; [exact Hpos | lra].
Qed.

(** X21. The observation stays inside the declared box: for an engine within
    bounds whose balls add up to [TOTAL_BALLS] and whose clock is between 0 and
    [MATCH_DURATION], every entry of the list [_get_obs] builds lies between 0
    and 1. *)
Theorem _get_obs_in_unit_box (e : Engine) (team : string) (obs : list Q) :
  _get_obs e team = Some obs ->
  in_bounds e -> conserved e ->
  0 <= time e -> time e <= config.MATCH_DURATION ->
  Forall (fun x => 0 <= x /\ x <= 1) obs.
Proof.
  intros H Hb Hc Ht0 Ht1. pose proof Hb as [Hz Hall].
  assert (Hd : forall k, 0 <= get_zone_density e k /\ get_zone_density e k <= 1).
  { intros k. split; [now apply get_zone_density_nonneg
                     | now apply get_zone_density_le_1]. }
  assert (Hact : forall st : string,
             0 <= (if st =? config.HUB_ACTIVE then 1 else 0)
             /\ (if st =? config.HUB_ACTIVE then 1 else 0) <= 1).
  { intros st. destruct (st =? config.HUB_ACTIVE); split; discriminate. }
  assert (Htime : 0 <= time e / config.MATCH_DURATION
                  /\ time e / config.MATCH_DURATION <= 1).
  { unfold config.MATCH_DURATION in *. split.
    - apply Qle_shift_div_l; [reflexivity | lra].
    - apply Qle_shift_div_r; [reflexivity | lra]. }
  assert (H3 : Forall robot_in_bounds (firstn 3 (robots e)))
    by now apply Forall_firstn_of.
  assert (H6 : Forall robot_in_bounds (firstn 3 (skipn 3 (robots e))))
    by now apply Forall_firstn_of, Forall_skipn_of.
  unfold _get_obs in H.
  destruct (team =? "Red").
  - destruct (bots_obs (firstn 3 (robots e) ++ firstn 3 (skipn 3 (robots e)))
                config.ZONE_RED config.ZONE_BLUE) as [l|] eqn:Hbs;
      [|discriminate].
    apply bots_obs_unit in Hbs; [|apply Forall_app; now split].
    injection H as <-. apply Forall_app. split; [exact Hbs|].
    repeat (apply Forall_cons; [first [apply Hact | apply Hd | exact Htime]|]).
    apply Forall_nil.
  - destruct (bots_obs (firstn 3 (skipn 3 (robots e)) ++ firstn 3 (robots e))
                config.ZONE_BLUE config.ZONE_RED) as [l|] eqn:Hbs;
      [|discriminate].
    apply bots_obs_unit in Hbs; [|apply Forall_app; now split].
    injection H as <-. apply Forall_app. split; [exact Hbs|].
    repeat (apply Forall_cons; [first [apply Hact | apply Hd | exact Htime]|]).
    apply Forall_nil.
Qed.

Lemma _get_obs_in_unit_box_witness :
  exists obs,
    _get_obs reset_engine "Red" = Some obs
    /\ Forall (fun x => 0 <= x /\ x <= 1) obs.
Proof.
  destruct (_get_obs reset_engine "Red") as [obs|] eqn:H;
    [|vm_compute in H; discriminate H].
  exists obs. split; [reflexivity|].
  apply (_get_obs_in_unit_box reset_engine "Red" obs H).
  - exact reset_engine_in_bounds.
  - exact reset_engine_conserved.
  - vm_compute. discriminate.
  - vm_compute. discriminate.
Defined.
